(** * Password generator: [Password_Generator/passGenerator.py]

    The development embeds [build_character_pool] and [generate_password]
    and the two routines of Python's [secrets]/[random] modules they call
    ([choice] and [shuffle]), with the operating system's entropy made an
    explicit parameter, and proves the properties the specification states
    about them. It then embeds the callers of the generator, the console
    session ([prompt_int], [prompt_yes_no], [run_cli]) and the callbacks
    of the window ([on_generate], [on_copy]), with the terminal, the Tk
    variables and the text operations of the library made explicit, and
    proves what the code itself guarantees about them. *)

From Stdlib Require Import ZArith Ascii String DecimalString.
From stdpp Require Import base tactics option list strings.
From Equations Require Import Equations.

Local Open Scope string_scope.
Local Open Scope list_scope.

(** ** Category registry *)

(** [string.ascii_lowercase], [string.ascii_uppercase] and [string.digits]
    of Python's standard library. *)
Definition ascii_lowercase : string := "abcdefghijklmnopqrstuvwxyz".
Definition ascii_uppercase : string := "ABCDEFGHIJKLMNOPQRSTUVWXYZ".
Definition digits : string := "0123456789".

(** The symbol literal of the source, written there as
    ["!@#$%^&*()-_=+[]{};:,.?/\\|"]: the doubled backslash of the Python
    literal denotes one backslash character. *)
Definition symbol_chars : string := "!@#$%^&*()-_=+[]{};:,.?/\|".

(** The categories as the specification names them. *)
Inductive Category : Set := Lowercase | Uppercase | Digit | Symbol.

#[global] Instance Category_eq_dec : EqDecision Category.
Proof. solve_decision. Defined.

Definition category_order : list Category :=
  [Lowercase; Uppercase; Digit; Symbol].

Definition category_pool (c : Category) : string :=
  match c with
  | Lowercase => ascii_lowercase
  | Uppercase => ascii_uppercase
  | Digit => digits
  | Symbol => symbol_chars
  end.

(** A selection is the four keyword flags of the source. *)
Record CategorySelection : Set := Selection {
  include_lower : bool;
  include_upper : bool;
  include_digits : bool;
  include_symbols : bool
}.

Definition enabled (sel : CategorySelection) (c : Category) : bool :=
  match c with
  | Lowercase => include_lower sel
  | Uppercase => include_upper sel
  | Digit => include_digits sel
  | Symbol => include_symbols sel
  end.

Definition enabled_categories (sel : CategorySelection) : list Category :=
  filter (fun c => enabled sel c = true) category_order.

(** Membership of a character in a Python [str]. *)
Definition chars (s : string) : list ascii := list_ascii_of_string s.

(** ** Pool builder *)

(** [sep.join(parts)] for the empty separator used by the source. *)
Definition join (parts : list string) : string := String.concat "" parts.

(** [build_character_pool]: the list [pool_parts] grows by one [append]
    per enabled flag and is joined at the end. *)
Definition build_character_pool
    (include_lower include_upper include_digits include_symbols : bool)
    : string :=
  let pool_parts : list string := [] in
  let pool_parts :=
    if include_lower then pool_parts ++ [ascii_lowercase] else pool_parts in
  let pool_parts :=
    if include_upper then pool_parts ++ [ascii_uppercase] else pool_parts in
  let pool_parts :=
    if include_digits then pool_parts ++ [digits] else pool_parts in
  let pool_parts :=
    if include_symbols then pool_parts ++ [symbol_chars] else pool_parts in
  join pool_parts.

(** The pool as the specification words it: the pools of the enabled
    categories, taken in the fixed category order and concatenated. *)
Definition spec_pool (sel : CategorySelection) : list ascii :=
  concat (map (fun c => chars (category_pool c)) (enabled_categories sel)).

(** ** Exceptions and the entropy-threading monad *)

(** The two exception classes that can arise: the [ValueError]s raised by
    [generate_password], and the [IndexError] of [secrets.choice] on an
    empty sequence and of an index out of range. *)
Inductive exn : Set :=
  | ValueError (msg : string)
  | IndexError (msg : string).

(** The error kinds of the specification, as the source raises them. The
    source raises nothing else: no [raise] of it compares the length with
    the number of categories. *)
Definition InvalidLength : exn :=
  ValueError "Password length must be positive.".
Definition NoCategorySelected : exn :=
  ValueError "At least one character category must be selected.".

(** A computation consumes draws from the entropy source; the state is the
    number of draws consumed so far. *)
Definition M (A : Type) : Type := nat -> (exn + A) * nat.

Definition ret {A} (a : A) : M A := fun st => (inr a, st).
Definition raise {A} (e : exn) : M A := fun st => (inl e, st).
Definition bind {A B} (m : M A) (k : A -> M B) : M B :=
  fun st =>
    match m st with
    | (inl e, st') => (inl e, st')
    | (inr a, st') => k a st'
    end.

Notation "'let*' x ':=' m 'in' k" := (bind m (fun x => k))
  (at level 10, x name, m at level 100, k at level 200).

(** [x[i], x[j] = x[j], x[i]]: the right-hand side reads [x[j]], then
    [x[i]]; then [x[i]] and [x[j]] are assigned in that order. A read out
    of range raises [IndexError]. *)
Definition swap {A} (x : list A) (i j : nat) : M (list A) :=
  match x !! j with
  | None => raise (IndexError "list index out of range")
  | Some xj =>
      match x !! i with
      | None => raise (IndexError "list index out of range")
      | Some xi => ret (<[j := xi]> (<[i := xj]> x))
      end
  end.

(** [lst[:n]] for a Python integer [n]: a negative [n] counts from the
    end. *)
Definition slice_to {A} (lst : list A) (n : Z) : list A :=
  if (n <? 0)%Z then take (length lst - Z.to_nat (- n)) lst
  else take (Z.to_nat n) lst.

Section Generator.

(** The operating system's entropy: the [t]-th raw draw. [_randbelow n]
    reduces it to the range [0, n); every sequence of in-range outcomes
    is the image of some [entropy]. *)
Variable entropy : nat -> nat.

(** [SystemRandom._randbelow(n)], for [n > 0]. *)
Definition randbelow (n : nat) : M nat :=
  fun st => (inr (entropy st mod n), S st).

(** [secrets.choice(seq)] on a string. *)
Definition choice (seq : string) : M ascii :=
  if Nat.eqb (String.length seq) 0
  then raise (IndexError "Cannot choose from an empty sequence")
  else
    let* i := randbelow (String.length seq) in
    match String.get i seq with
    | Some c => ret c
    | None => raise (IndexError "string index out of range")
    end.

(** [SystemRandom().shuffle(x)]: [for i in reversed(range(1, len(x)))],
    exchange [x[i]] with [x[j]] for a drawn [j] in [0, i]. The argument
    [i] is the current loop index, counting down to [1]. *)
Fixpoint shuffle_from {A} (i : nat) (x : list A) : M (list A) :=
  match i with
  | 0 => ret x
  | S i' =>
      let* j := randbelow (i + 1) in
      let* x := swap x i j in
      shuffle_from i' x
  end.

Definition shuffle {A} (x : list A) : M (list A) :=
  shuffle_from (length x - 1) x.

(** The loop [while len(password_chars) < length:
    password_chars.append(secrets.choice(pool))]. *)
Equations? fill_rest (len : Z) (pool : string)
    (password_chars : list ascii) (st : nat) : (exn + list ascii) * nat
    by wf (Z.to_nat (len - Z.of_nat (length password_chars))) lt :=
  fill_rest len pool password_chars st with
    decide (Z.of_nat (length password_chars) < len)%Z := {
    | right _ => (inr password_chars, st)
    | left _ with choice pool st := {
        | (inl e, st') => (inl e, st')
        | (inr c, st') => fill_rest len pool (password_chars ++ [c]) st'
      }
    }.
Proof. rewrite length_app. simpl. lia. Qed.

(** The guarantee step for one category: [if flag:
    password_chars.append(secrets.choice(category_chars))]. *)
Definition guarantee (flag : bool) (category_chars : string)
    (password_chars : list ascii) : M (list ascii) :=
  if flag
  then let* c := choice category_chars in ret (password_chars ++ [c])
  else ret password_chars.

(** [generate_password]. Its docstring: "Generate a cryptographically
    secure password of the requested length. Ensures at least one character
    from each selected category is present." The buffer [password_chars]
    holds one-character strings, modelled as characters, so that
    ["".join] is the string of the list. The shuffle is called on a fresh
    [SystemRandom()], which reads the same operating-system entropy as
    [secrets.choice]. *)
Definition generate_password (length : Z)
    (include_lower include_upper include_digits include_symbols : bool)
    : M string :=
  if (length <=? 0)%Z then raise InvalidLength
  else
    let pool :=
      build_character_pool
        include_lower include_upper include_digits include_symbols in
    if Nat.eqb (String.length pool) 0 then raise NoCategorySelected
    else
      let password_chars : list ascii := [] in
      (* Guarantee at least one of each chosen type *)
      let* password_chars :=
        guarantee include_lower ascii_lowercase password_chars in
      let* password_chars :=
        guarantee include_upper ascii_uppercase password_chars in
      let* password_chars :=
        guarantee include_digits digits password_chars in
      let* password_chars :=
        guarantee include_symbols symbol_chars password_chars in
      (* Fill the rest *)
      let* password_chars := fill_rest length pool password_chars in
      (* Shuffle to avoid predictable placement of guaranteed chars *)
      let* password_chars := shuffle password_chars in
      ret (string_of_list_ascii (slice_to password_chars length)).

End Generator.

(** ** The call interface of the specification *)

(** [generate(length, selection)]: the selection supplies the four keyword
    arguments. *)
Definition generate (entropy : nat -> nat) (len : Z)
    (sel : CategorySelection) : M string :=
  generate_password entropy len (include_lower sel) (include_upper sel)
    (include_digits sel) (include_symbols sel).

Definition build_pool (sel : CategorySelection) : string :=
  build_character_pool (include_lower sel) (include_upper sel)
    (include_digits sel) (include_symbols sel).

(** The number of enabled categories. *)
Definition category_count (sel : CategorySelection) : nat :=
  length (enabled_categories sel).

Definition no_category : CategorySelection :=
  Selection false false false false.

(** ** Vocabulary of the statements *)

(** One draw per category, in category order, each from the category's own
    pool. *)
Definition one_per_category (cs : list ascii) (cats : list Category) : Prop :=
  Forall2 (fun c cat => c ∈ chars (category_pool cat)) cs cats.

(** The category a character belongs to, if any. *)
Definition category_of (c : ascii) : option Category :=
  head (filter (fun cat => c ∈ chars (category_pool cat)) category_order).

(** The categories that have a character in a given sequence. *)
Definition covered (cs : list ascii) : list Category := omap category_of cs.

(** The list left by [x[i], x[j] = x[j], x[i]] when both indices are in
    range. *)
Definition swapped {A} (x : list A) (i j : nat) : list A :=
  match x !! j, x !! i with
  | Some xj, Some xi => <[j := xi]> (<[i := xj]> x)
  | _, _ => x
  end.

(** The exchanges of the shuffle loop from index [i] down to [1], with the
    drawn indices prescribed by [js]. *)
Fixpoint replay {A} (i : nat) (js : list nat) (x : list A) : list A :=
  match i, js with
  | S i', j :: js' => replay i' js' (swapped x i j)
  | _, _ => x
  end.

(** The indices the shuffle loop draws from [entropy], starting at draw
    [st] with loop index [i]. *)
Fixpoint draws (entropy : nat -> nat) (i st : nat) : list nat :=
  match i with
  | 0 => []
  | S i' => entropy st mod (i + 1) :: draws entropy i' (S st)
  end.

(** [js] is a possible sequence of draws for the loop from index [i]: one
    draw per index [i], ..., [1], the draw at index [k] in [0, k]. *)
Fixpoint in_range (i : nat) (js : list nat) : Prop :=
  match i, js with
  | 0, [] => True
  | S i', j :: js' => j <= i /\ in_range i' js'
  | _, _ => False
  end.

(** All possible sequences of draws for the loop from index [i]. *)
Fixpoint draw_vectors (i : nat) : list (list nat) :=
  match i with
  | 0 => [[]]
  | S i' => j ← seq 0 (i + 1); (j ::.) <$> draw_vectors i'
  end.

(** An entropy source that yields the draws [js] from draw [st] on. *)
Definition tape (st : nat) (js : list nat) : nat -> nat :=
  fun t => nth (t - st) js 0.

(** A deterministic entropy source, for running the generator on concrete
    requests. *)
Definition zero_entropy : nat -> nat := fun _ => 0.
Definition affine_entropy : nat -> nat := fun t => 7 * t + 3.

(** ** The callers: the console session and the window *)

(** The characters of a sequence that belong to a category. *)
Definition of_category (cat : Category) (cs : list ascii) : list ascii :=
  filter (fun c => c ∈ chars (category_pool cat)) cs.

(** The operations of Python's [str] and [int] that the callers apply to
    what the user typed: [s.strip()], [s.lower()], [s.isdigit()], [int(s)]
    (which may raise [ValueError]) and the decimal text [str(n)] of an
    integer that is within the interpreter's limit on digits (see
    [format_int]). They are parameters of the callers: the text is Unicode
    and the tables that decide these operations are not part of the
    program. *)
Record StrOps : Type := {
  str_strip : string -> string;
  str_lower : string -> string;
  str_isdigit : string -> bool;
  int_of_str : string -> exn + Z;
  str_of_int : Z -> string
}.

(** [any(flags)]. *)
Definition any (flags : list bool) : bool := existsb id flags.

(** The interpreter's default limit on the number of digits of an integer
    converted to decimal text ([sys.int_info.default_max_str_digits]), and
    the [ValueError] of a conversion beyond it. *)
Definition int_max_str_digits : Z := 4300.

Definition int_str_limit_error : exn :=
  ValueError "Exceeds the limit (4300 digits) for integer string conversion; use sys.set_int_max_str_digits() to increase the limit".

(** [{n}] inside an f-string: the decimal text of [n], or the [ValueError]
    above when [n] has more than [int_max_str_digits] digits. *)
Definition format_int (py : StrOps) (n : Z) : exn + string :=
  if (10 ^ int_max_str_digits <=? Z.abs n)%Z
  then inl int_str_limit_error
  else inr (str_of_int py n).

Arguments format_int : simpl never.

(** *** The console *)

(** What was written to the terminal: the prompt of an [input] call or a
    [print]ed line. *)
Inductive output : Set :=
  | Prompt (text : string)
  | Print (line : string).

(** The lines the user will type until the end of input, what was written
    so far and the number of entropy draws made so far. *)
Record world : Set := World {
  stdin : list string;
  stdout : list output;
  drawn : nat
}.

(** What can leave a console function: [EOFError] of [input] at the end of
    input, or an exception raised by a call it does not guard. *)
Inductive cli_exn : Set :=
  | EOFError
  | Raised (e : exn).

Definition IO (A : Type) : Type := world -> (cli_exn + A) * world.

Definition io_ret {A} (a : A) : IO A := fun w => (inr a, w).
Definition io_raise {A} (e : cli_exn) : IO A := fun w => (inl e, w).
Definition io_bind {A B} (m : IO A) (k : A -> IO B) : IO B :=
  fun w =>
    match m w with
    | (inl e, w') => (inl e, w')
    | (inr a, w') => k a w'
    end.

Notation "'let!' x ':=' m 'in' k" := (io_bind m (fun x => k))
  (at level 10, x name, m at level 100, k at level 200).

(** [print(line)]. *)
Definition print (line : string) : IO unit :=
  fun w => (inr tt, World (stdin w) (stdout w ++ [Print line]) (drawn w)).

(** [input(prompt_text)]: writes the prompt, then reads one line. *)
Definition input (prompt_text : string) : IO string :=
  fun w =>
    match stdin w with
    | [] =>
        (inl EOFError, World [] (stdout w ++ [Prompt prompt_text]) (drawn w))
    | line :: lines =>
        (inr line, World lines (stdout w ++ [Prompt prompt_text]) (drawn w))
    end.

(** A generator call inside [try: ... except ValueError]: the outcome is
    handed to the handler. *)
Definition try_generate (m : M string) : IO (exn + string) :=
  fun w =>
    let '(r, st') := m (drawn w) in
    (inr r, World (stdin w) (stdout w) st').

Section Callers.

Variable py : StrOps.

(** [prompt_int]: the [while True] loop reads one line per round, so it is
    a recursion on the lines still to come; [out] is what was written so
    far. The f-string of a message is built before it is printed, so a
    bound too long to format raises with nothing more written. *)
Fixpoint prompt_int_loop (prompt_text : string) (minimum : Z)
    (maximum : option Z) (lines : list string) (out : list output)
    : (cli_exn + Z) * (list string * list output) :=
  match lines with
  | [] => (inl EOFError, ([], out ++ [Prompt prompt_text]))
  | line :: lines =>
      let out := out ++ [Prompt prompt_text] in
      let raw := str_strip py line in
      if negb (str_isdigit py raw) then
        prompt_int_loop prompt_text minimum maximum lines
          (out ++ [Print "Please enter a valid positive number."])
      else
        match int_of_str py raw with
        | inl e => (inl (Raised e), (lines, out))
        | inr value =>
            if (value <? minimum)%Z then
              match format_int py minimum with
              | inl e => (inl (Raised e), (lines, out))
              | inr text =>
                  prompt_int_loop prompt_text minimum maximum lines
                    (out ++ [Print ("Please enter a number greater than or equal to "
                                    +:+ text +:+ ".")])
              end
            else
              match maximum with
              | Some max_value =>
                  if (value >? max_value)%Z then
                    match format_int py max_value with
                    | inl e => (inl (Raised e), (lines, out))
                    | inr text =>
                        prompt_int_loop prompt_text minimum maximum lines
                          (out ++ [Print ("Please enter a number less than or equal to "
                                          +:+ text +:+ ".")])
                    end
                  else (inr value, (lines, out))
              | None => (inr value, (lines, out))
              end
        end
  end.

Definition prompt_int (prompt_text : string) (minimum : Z)
    (maximum : option Z) : IO Z :=
  fun w =>
    let '(r, (lines, out)) :=
      prompt_int_loop prompt_text minimum maximum (stdin w) (stdout w) in
    (r, World lines out (drawn w)).

(** The suffix [prompt_yes_no] shows for its default. *)
Definition yes_no_suffix (default : option bool) : string :=
  match default with
  | Some true => " [Y/n]"
  | Some false => " [y/N]"
  | None => " [y/n]"
  end.

(** [prompt_yes_no]: again one line per round of the loop. *)
Fixpoint prompt_yes_no_loop (prompt_text : string) (default : option bool)
    (lines : list string) (out : list output)
    : (cli_exn + bool) * (list string * list output) :=
  let shown := Prompt (prompt_text +:+ yes_no_suffix default +:+ ": ") in
  match lines with
  | [] => (inl EOFError, ([], out ++ [shown]))
  | line :: lines =>
      let out := out ++ [shown] in
      let raw := str_lower py (str_strip py line) in
      match default with
      | Some answer =>
          if String.eqb raw "" then (inr answer, (lines, out))
          else if String.eqb raw "y" || String.eqb raw "yes"
          then (inr true, (lines, out))
          else if String.eqb raw "n" || String.eqb raw "no"
          then (inr false, (lines, out))
          else
            prompt_yes_no_loop prompt_text default lines
              (out ++ [Print "Please respond with 'y' or 'n'."])
      | None =>
          if String.eqb raw "y" || String.eqb raw "yes"
          then (inr true, (lines, out))
          else if String.eqb raw "n" || String.eqb raw "no"
          then (inr false, (lines, out))
          else
            prompt_yes_no_loop prompt_text default lines
              (out ++ [Print "Please respond with 'y' or 'n'."])
      end
  end.

Definition prompt_yes_no (prompt_text : string) (default : option bool)
    : IO bool :=
  fun w =>
    let '(r, (lines, out)) :=
      prompt_yes_no_loop prompt_text default (stdin w) (stdout w) in
    (r, World lines out (drawn w)).

Variable entropy : nat -> nat.

(** The line [print(newline + "Generated password:")] writes. *)
Definition generated_password_header : string :=
  String "010" "Generated password:".

Definition run_cli : IO unit :=
  let! _ := print "Password Generator (secure)" in
  let! _ := print "---------------------------" in
  let! length :=
    prompt_int "Enter desired password length (e.g., 12-128): " 4 (Some 512%Z)
  in
  let! include_lower :=
    prompt_yes_no "Include lowercase letters?" (Some true) in
  let! include_upper :=
    prompt_yes_no "Include uppercase letters?" (Some true) in
  let! include_digits := prompt_yes_no "Include digits?" (Some true) in
  let! include_symbols := prompt_yes_no "Include symbols?" (Some true) in
  let! include_lower :=
    if negb (any [include_lower; include_upper; include_digits;
                  include_symbols])
    then
      let! _ :=
        print "No categories selected. Defaulting to lowercase letters." in
      io_ret true
    else io_ret include_lower in
  let! outcome :=
    try_generate
      (generate_password entropy length include_lower include_upper
         include_digits include_symbols) in
  match outcome with
  | inl (ValueError msg) => print ("Error: " +:+ msg)
  | inl e => io_raise (Raised e)
  | inr password =>
      let! _ := print generated_password_header in
      print password
  end.

End Callers.

(** *** The window *)

(** What the callbacks do to the screen: a [messagebox] dialog, the focus
    and selection set on the password entry, [root.update()]. *)
Inductive ui_event : Set :=
  | ShowError (title message : string)
  | ShowInfo (title message : string)
  | FocusPassword
  | SelectPassword
  | Update.

(** The Tk variables of [run_gui], the clipboard, the events so far and the
    number of entropy draws made so far. *)
Record window : Set := Window {
  length_var : string;
  include_lower_var : bool;
  include_upper_var : bool;
  include_digits_var : bool;
  include_symbols_var : bool;
  password_var : string;
  clipboard : string;
  events : list ui_event;
  win_drawn : nat
}.

(** The window as [run_gui] builds it: length 16, every box ticked, no
    password yet. *)
Definition initial_window (clipboard : string) (st : nat) : window :=
  Window "16" true true true true "" clipboard [] st.

Definition show (e : ui_event) (w : window) : window :=
  Window (length_var w) (include_lower_var w) (include_upper_var w)
    (include_digits_var w) (include_symbols_var w) (password_var w)
    (clipboard w) (events w ++ [e]) (win_drawn w).

Definition set_password (pwd : string) (w : window) : window :=
  Window (length_var w) (include_lower_var w) (include_upper_var w)
    (include_digits_var w) (include_symbols_var w) pwd
    (clipboard w) (events w) (win_drawn w).

Definition set_clipboard (text : string) (w : window) : window :=
  Window (length_var w) (include_lower_var w) (include_upper_var w)
    (include_digits_var w) (include_symbols_var w) (password_var w)
    text (events w) (win_drawn w).

Definition set_drawn (st : nat) (w : window) : window :=
  Window (length_var w) (include_lower_var w) (include_upper_var w)
    (include_digits_var w) (include_symbols_var w) (password_var w)
    (clipboard w) (events w) st.

Section Window.

Variable py : StrOps.
Variable entropy : nat -> nat.

(** The callback of the Generate button. An exception of [int], which is
    called outside the [try], leaves the callback. *)
Definition on_generate (w : window) : (exn + unit) * window :=
  let raw_len := str_strip py (length_var w) in
  if negb (str_isdigit py raw_len) then
    (inr tt,
     show (ShowError "Invalid input" "Length must be a positive number.") w)
  else
    match int_of_str py raw_len with
    | inl e => (inl e, w)
    | inr length =>
        if (length <? 4)%Z || (length >? 512)%Z then
          (inr tt,
           show (ShowError "Invalid length"
                   "Please choose a length between 4 and 512.") w)
        else
          let include_lower := include_lower_var w in
          let include_upper := include_upper_var w in
          let include_digits := include_digits_var w in
          let include_symbols := include_symbols_var w in
          if negb (any [include_lower; include_upper; include_digits;
                        include_symbols])
          then
            (inr tt,
             show (ShowError "No character sets"
                     "Select at least one character set.") w)
          else
            match
              generate_password entropy length include_lower include_upper
                include_digits include_symbols (win_drawn w)
            with
            | (inr pwd, st') =>
                (inr tt,
                 show SelectPassword
                   (show FocusPassword (set_password pwd (set_drawn st' w))))
            | (inl (ValueError msg), st') =>
                (inr tt, show (ShowError "Error" msg) (set_drawn st' w))
            | (inl e, st') => (inl e, set_drawn st' w)
            end
    end.

(** The callback of the Copy button: [clipboard_clear] then
    [clipboard_append(pwd)]. *)
Definition on_copy (w : window) : window :=
  let pwd := password_var w in
  if Nat.eqb (String.length pwd) 0 then
    show (ShowInfo "Nothing to copy" "Generate a password first.") w
  else
    let w := set_clipboard "" w in
    let w := set_clipboard (clipboard w +:+ pwd) w in
    let w := show Update w in
    show (ShowInfo "Copied" "Password copied to clipboard.") w.

End Window.

(** *** The library on ASCII text *)

Definition ascii_isspace (c : ascii) : bool :=
  let n := nat_of_ascii c in
  (Nat.leb 9 n && Nat.leb n 13) || (Nat.leb 28 n && Nat.leb n 32).

Definition ascii_isdigit (c : ascii) : bool :=
  let n := nat_of_ascii c in Nat.leb 48 n && Nat.leb n 57.

Definition ascii_lower (c : ascii) : ascii :=
  let n := nat_of_ascii c in
  if Nat.leb 65 n && Nat.leb n 90 then ascii_of_nat (n + 32) else c.

Fixpoint lstrip (cs : list ascii) : list ascii :=
  match cs with
  | c :: cs' => if ascii_isspace c then lstrip cs' else cs
  | [] => []
  end.

Definition digits_value (cs : list ascii) : Z :=
  fold_left (fun acc c => (10 * acc + Z.of_nat (nat_of_ascii c - 48))%Z) cs 0%Z.

(** [str(n)] for an integer. *)
Definition decimal_of_Z (n : Z) : string :=
  NilZero.string_of_int (Z.to_int n).

(** What the operations do on ASCII text. [int] is only given strings that
    passed [isdigit]; on ASCII text those are the non-empty strings of
    decimal digits. *)
Definition ascii_ops : StrOps := {|
  str_strip s :=
    string_of_list_ascii (rev (lstrip (rev (lstrip (chars s)))));
  str_lower s := string_of_list_ascii (map ascii_lower (chars s));
  str_isdigit s :=
    negb (Nat.eqb (String.length s) 0) && forallb ascii_isdigit (chars s);
  int_of_str s :=
    if negb (Nat.eqb (String.length s) 0) && forallb ascii_isdigit (chars s)
    then inr (digits_value (chars s))
    else inl (ValueError ("invalid literal for int() with base 10: '"
                          +:+ s +:+ "'"));
  str_of_int := decimal_of_Z
|}.

(** *** Vocabulary of the callers' statements *)

(** A line [prompt_int] turns down: not a digit string, or a number outside
    the bounds. *)
Definition int_rejected (py : StrOps) (minimum : Z) (maximum : option Z)
    (line : string) : Prop :=
  str_isdigit py (str_strip py line) = false
  \/ exists value,
       str_isdigit py (str_strip py line) = true
       /\ int_of_str py (str_strip py line) = inr value
       /\ ((value < minimum)%Z
           \/ exists max_value, maximum = Some max_value
                /\ (max_value < value)%Z).

(** What one round of prompting per line writes: the prompt before every
    line read and a message after every line turned down. *)
Definition rounds (shown : output) (messages : list string) : list output :=
  concat (map (fun m => [shown; Print m]) messages) ++ [shown].

(** The answer [prompt_yes_no] reads from a line: the normalised text is
    [y] or [yes], [n] or [no], or it is empty and there is a default. *)
Definition yes_no_answered (py : StrOps) (default : option bool)
    (line : string) (answer : bool) : Prop :=
  let raw := str_lower py (str_strip py line) in
  (raw = "" /\ default = Some answer)
  \/ ((raw = "y" \/ raw = "yes") /\ answer = true)
  \/ ((raw = "n" \/ raw = "no") /\ answer = false).

(** A line [prompt_yes_no] asks again after. *)
Definition yes_no_skipped (py : StrOps) (default : option bool)
    (line : string) : Prop :=
  let raw := str_lower py (str_strip py line) in
  raw <> "y" /\ raw <> "yes" /\ raw <> "n" /\ raw <> "no"
  /\ (raw = "" -> default = None).

Definition yes_no_shown (prompt_text : string) (default : option bool)
    : output :=
  Prompt (prompt_text +:+ yes_no_suffix default +:+ ": ").

Definition yes_no_message : string := "Please respond with 'y' or 'n'.".

(** The categories [run_cli] asks the generator for, from the four
    answers: lowercase alone when all four were declined. *)
Definition cli_selection (lower upper digit symbol : bool)
    : CategorySelection :=
  Selection
    (if negb (any [lower; upper; digit; symbol]) then true else lower)
    upper digit symbol.

(** The text of a line as [prompt_yes_no] compares it. *)
Definition normalised (py : StrOps) (line : string) : string :=
  str_lower py (str_strip py line).

(** The boxes ticked in the window. *)
Definition ticked (w : window) : CategorySelection :=
  Selection (include_lower_var w) (include_upper_var w)
    (include_digits_var w) (include_symbols_var w).

(** The window after a successful Generate. *)
Definition generated (password : string) (st : nat) (w : window) : window :=
  show SelectPassword
    (show FocusPassword (set_password password (set_drawn st w))).

(** The character [secrets.choice(pool)] returns on draw [t]. *)
Definition chosen (entropy : nat -> nat) (pool : string) (t : nat) : ascii :=
  nth (entropy t mod String.length pool) (chars pool) Ascii.zero.

(** The buffer the guarantee step builds from draw [st] on: the character
    chosen in the pool of each enabled category, in category order, one
    draw each. *)
Fixpoint guaranteed_chars (entropy : nat -> nat) (cats : list Category)
    (st : nat) : list ascii :=
  match cats with
  | [] => []
  | cat :: cats' =>
      chosen entropy (category_pool cat) st
        :: guaranteed_chars entropy cats' (S st)
  end.

(** Everything a session of [run_cli] that runs to its end writes:
    [messages] are those of the length prompt, [n1] to [n4] count the
    lines each yes/no prompt asked again after. *)
Definition cli_screen (messages : list string) (n1 n2 n3 n4 : nat)
    (lower upper digit symbol : bool) (password : string) : list output :=
  [Print "Password Generator (secure)"; Print "---------------------------"]
  ++ rounds (Prompt "Enter desired password length (e.g., 12-128): ") messages
  ++ rounds (yes_no_shown "Include lowercase letters?" (Some true))
       (replicate n1 yes_no_message)
  ++ rounds (yes_no_shown "Include uppercase letters?" (Some true))
       (replicate n2 yes_no_message)
  ++ rounds (yes_no_shown "Include digits?" (Some true))
       (replicate n3 yes_no_message)
  ++ rounds (yes_no_shown "Include symbols?" (Some true))
       (replicate n4 yes_no_message)
  ++ (if negb (any [lower; upper; digit; symbol])
      then [Print "No categories selected. Defaulting to lowercase letters."]
      else [])
  ++ [Print generated_password_header; Print password].


(** A session at the length prompt, for running [prompt_int], and what it
    leaves. *)
Definition typed_lengths : world := World ["abc"; "2"; " 12 "; "7"] [] 0.
Definition after_typed_lengths : world :=
  World ["7"]
    [Prompt "Length: "; Print "Please enter a valid positive number.";
     Prompt "Length: ";
     Print "Please enter a number greater than or equal to 4.";
     Prompt "Length: "] 0.

(** A whole session of [run_cli], two lengths and one answer being turned
    down on the way, and what it leaves. *)
Definition typed_session : world :=
  World ["x"; "3"; "8"; ""; "no"; "what"; "Y"; "n"; "left"] [] 0.
Definition after_typed_session : world :=
  World ["left"]
    [Print "Password Generator (secure)";
     Print "---------------------------";
     Prompt "Enter desired password length (e.g., 12-128): ";
     Print "Please enter a valid positive number.";
     Prompt "Enter desired password length (e.g., 12-128): ";
     Print "Please enter a number greater than or equal to 4.";
     Prompt "Enter desired password length (e.g., 12-128): ";
     Prompt "Include lowercase letters? [Y/n]: ";
     Prompt "Include uppercase letters? [Y/n]: ";
     Prompt "Include digits? [Y/n]: ";
     Print "Please respond with 'y' or 'n'.";
     Prompt "Include digits? [Y/n]: ";
     Prompt "Include symbols? [Y/n]: ";
     Print generated_password_header;
     Print "5rcjd0qy"]
    15.

(** * Properties *)

(** ** Strings as character sequences *)

Lemma chars_length (s : string) : length (chars s) = String.length s.
Proof. induction s as [|c s IH]; simpl; [done | by rewrite IH]. Qed.

Lemma string_length_of_list (l : list ascii) :
  String.length (string_of_list_ascii l) = length l.
Proof. induction l as [|c l IH]; simpl; [done | by rewrite IH]. Qed.

Lemma get_lookup (s : string) (i : nat) : String.get i s = chars s !! i.
Proof.
  revert i. induction s as [|c s IH]; intros [|i]; simpl; done.
Qed.

(** ** The pool builder *)

Lemma build_character_pool_spec_pool (l u d s : bool) :
  chars (build_character_pool l u d s) = spec_pool (Selection l u d s).
Proof. by destruct l, u, d, s. Qed.

Lemma category_pool_nonempty (cat : Category) : category_pool cat <> "".
Proof. by destruct cat. Qed.

Lemma enabled_categories_flags (l u d s : bool) :
  enabled_categories (Selection l u d s) =
  (if l then [Lowercase] else []) ++ (if u then [Uppercase] else []) ++
  (if d then [Digit] else []) ++ (if s then [Symbol] else []).
Proof. by destruct l, u, d, s. Qed.

(** ** The shuffle as a function of its draws *)

Lemma bind_inr {A B} (m : M A) (k : A -> M B) (st st' : nat) (a : A) :
  m st = (inr a, st') -> bind m k st = k a st'.
Proof. unfold bind. by intros ->. Qed.

Section Shuffle_draws.

Context {A : Type}.
Implicit Types x y : list A.

Lemma swapped_length x i j : length (swapped x i j) = length x.
Proof.
  unfold swapped. destruct (x !! j), (x !! i); try done.
  by rewrite !length_insert.
Qed.

Lemma swapped_Permutation x i j : swapped x i j ≡ₚ x.
Proof.
  unfold swapped. destruct (x !! j) eqn:Hj, (x !! i) eqn:Hi; try done.
  by apply Permutation_insert_swap.
Qed.

Lemma swap_swapped x i j st :
  i < length x -> j < length x -> swap x i j st = (inr (swapped x i j), st).
Proof.
  intros [xi Hi]%lookup_lt_is_Some_2 [xj Hj]%lookup_lt_is_Some_2.
  unfold swap, swapped. by rewrite Hi, Hj.
Qed.

(** After the exchange, position [i] holds what position [j] held. *)
Lemma swapped_lookup_i x i j :
  i < length x -> j < length x -> swapped x i j !! i = x !! j.
Proof.
  intros Hi Hj.
  destruct (lookup_lt_is_Some_2 _ _ Hi) as [xi Hxi].
  destruct (lookup_lt_is_Some_2 _ _ Hj) as [xj Hxj].
  unfold swapped. rewrite Hxi, Hxj.
  destruct (decide (i = j)) as [-> | Hne].
  - rewrite list_lookup_insert_eq by (by rewrite length_insert). congruence.
  - rewrite list_lookup_insert_ne by done.
    by rewrite list_lookup_insert_eq.
Qed.

Lemma swapped_lookup_other x i j k :
  k <> i -> k <> j -> swapped x i j !! k = x !! k.
Proof.
  intros Hi Hj. unfold swapped. destruct (x !! j), (x !! i); try done.
  by rewrite !list_lookup_insert_ne.
Qed.

Lemma swapped_app x suffix i j :
  i < length x -> j < length x ->
  swapped (x ++ suffix) i j = swapped x i j ++ suffix.
Proof.
  intros Hi Hj. unfold swapped. rewrite !lookup_app_l by done.
  destruct (x !! j), (x !! i); try done.
  rewrite insert_app_l by done.
  by rewrite insert_app_l by (by rewrite length_insert).
Qed.

Lemma replay_length i js x : length (replay i js x) = length x.
Proof.
  revert js x. induction i as [| i IH]; intros [| j js] x; simpl; try done.
  by rewrite IH, swapped_length.
Qed.

Lemma replay_Permutation i js x : replay i js x ≡ₚ x.
Proof.
  revert js x. induction i as [| i IH]; intros [| j js] x; simpl; try done.
  by rewrite IH, swapped_Permutation.
Qed.

(** The loop from index [i] leaves the positions above [i] alone. *)
Lemma replay_lookup_above i js x k :
  in_range i js -> i < k -> replay i js x !! k = x !! k.
Proof.
  revert js x. induction i as [| i IH]; intros [| j js] x; simpl; try done.
  intros [Hj Hjs] Hk. rewrite IH by (done || lia).
  apply swapped_lookup_other; lia.
Qed.

Lemma replay_app i js x suffix :
  in_range i js -> i < length x ->
  replay i js (x ++ suffix) = replay i js x ++ suffix.
Proof.
  revert js x. induction i as [| i IH]; intros [| j js] x; simpl; try done.
  intros [Hj Hjs] Hi. rewrite swapped_app by lia.
  apply IH; [done |]. rewrite swapped_length. lia.
Qed.

Lemma draws_in_range entropy i st : in_range i (draws entropy i st).
Proof.
  revert st. induction i as [| i IH]; intros st; [done |].
  cbn [draws in_range]. split; [| apply IH].
  assert (entropy st mod (S i + 1) < S i + 1)
    by (apply Nat.mod_upper_bound; lia). lia.
Qed.

Lemma draws_ext entropy1 entropy2 i st :
  (forall t, st <= t -> entropy1 t = entropy2 t) ->
  draws entropy1 i st = draws entropy2 i st.
Proof.
  revert st. induction i as [| i IH]; intros st Hext; [done |].
  cbn [draws]. rewrite (Hext st) by lia. f_equal.
  apply IH. intros t Ht. apply Hext. lia.
Qed.

Lemma draws_tape i js st : in_range i js -> draws (tape st js) i st = js.
Proof.
  revert js st. induction i as [| i IH]; intros [| j js] st; try done.
  intros [Hj Hjs]. cbn [draws]. f_equal.
  - unfold tape. rewrite Nat.sub_diag. simpl nth.
    apply Nat.mod_small. lia.
  - etrans; [| apply (IH js (S st) Hjs)]. apply draws_ext.
    intros t Ht. unfold tape.
    replace (t - st) with (S (t - S st)) by lia. done.
Qed.

(** The shuffle loop is the replay of the indices it draws. *)
Lemma shuffle_from_replay entropy i x st :
  i <= length x - 1 ->
  shuffle_from entropy i x st = (inr (replay i (draws entropy i st) x), i + st).
Proof.
  revert x st. induction i as [| i IH]; intros x st Hi; [done |].
  cbn [shuffle_from draws replay]. unfold randbelow.
  assert (entropy st mod (S i + 1) < S i + 1) as Hj
    by (apply Nat.mod_upper_bound; lia).
  unfold bind at 1.
  rewrite (bind_inr _ _ _ _ _
             (swap_swapped x (S i) (entropy st mod (S i + 1)) (S st)
                ltac:(lia) ltac:(lia))).
  rewrite IH by (rewrite swapped_length; lia). f_equal. lia.
Qed.

End Shuffle_draws.

(** ** The orderings the shuffle produces *)

Section Shuffle_orderings.

Context {A : Type}.
Implicit Types x y : list A.

(** Every ordering of the buffer is produced by some possible sequence of
    draws. *)
Lemma replay_reaches i x y :
  length x = S i -> y ≡ₚ x ->
  exists js, in_range i js /\ replay i js x = y.
Proof.
  revert x y. induction i as [| i IH]; intros x y Hlen Hperm.
  - exists []. split; [done |]. simpl.
    destruct x as [| a [| ? ?]]; try done.
    by apply Permutation_singleton_r in Hperm.
  - assert (length y = S (S i)) as Hleny by by rewrite Hperm.
    destruct (lookup_lt_is_Some_2 y (S i) ltac:(lia)) as [v Hv].
    assert (v ∈ x) as [j Hj]%list_elem_of_lookup_1.
    { rewrite <- Hperm. by eapply list_elem_of_lookup_2. }
    pose proof (lookup_lt_Some _ _ _ Hj) as Hjlt.
    pose (x' := swapped x (S i) j).
    assert (x' !! S i = Some v) as Hx'v.
    { unfold x'. rewrite swapped_lookup_i by lia. done. }
    assert (x' = take (S i) x' ++ [v]) as Hx'.
    { rewrite <- (take_S_r _ _ _ Hx'v).
      rewrite take_ge; [done |]. unfold x'. rewrite swapped_length. lia. }
    assert (y = take (S i) y ++ [v]) as Hy.
    { rewrite <- (take_S_r _ _ _ Hv). rewrite take_ge; [done | lia]. }
    destruct (IH (take (S i) x') (take (S i) y)) as (js & Hjs & Hreplay).
    { rewrite length_take. unfold x'. rewrite swapped_length. lia. }
    { apply (inj (.++ [v])). rewrite <- Hx', <- Hy.
      unfold x'. by rewrite swapped_Permutation. }
    exists (j :: js). split; [split; [lia | done] |].
    cbn [replay]. fold x'. rewrite Hx', replay_app, Hreplay; [done .. |].
    rewrite length_take. unfold x'. rewrite swapped_length. lia.
Qed.

(** On a buffer of distinct elements, distinct sequences of draws produce
    distinct orderings. *)
Lemma replay_inj i x js1 js2 :
  NoDup x -> i < length x ->
  in_range i js1 -> in_range i js2 ->
  replay i js1 x = replay i js2 x -> js1 = js2.
Proof.
  revert x js1 js2.
  induction i as [| i IH]; intros x [| j1 js1] [| j2 js2]; try done.
  intros Hnodup Hi [Hj1 Hjs1] [Hj2 Hjs2] Heq.
  assert (j1 = j2) as <-.
  { assert (x !! j1 = x !! j2) as Hsame.
    { rewrite <- (swapped_lookup_i x (S i) j1) by lia.
      rewrite <- (swapped_lookup_i x (S i) j2) by lia.
      rewrite <- (replay_lookup_above i js1 (swapped x (S i) j1) (S i))
        by (done || lia).
      rewrite <- (replay_lookup_above i js2 (swapped x (S i) j2) (S i))
        by (done || lia).
      cbn [replay] in Heq. by rewrite Heq. }
    destruct (lookup_lt_is_Some_2 x j1 ltac:(lia)) as [v Hv].
    rewrite Hv in Hsame. symmetry in Hsame.
    by eapply NoDup_lookup. }
  f_equal. apply (IH (swapped x (S i) j1)); try done.
  - by rewrite swapped_Permutation.
  - rewrite swapped_length. lia.
Qed.

End Shuffle_orderings.

(** The possible sequences of draws for the loop from index [i] are the
    members of [draw_vectors i]; there are [(i + 1)!] of them, all
    different. *)
Lemma draw_vectors_in_range (i : nat) (js : list nat) :
  js ∈ draw_vectors i <-> in_range i js.
Proof.
  revert js. induction i as [| i IH]; intros js; cbn [draw_vectors in_range].
  - rewrite list_elem_of_singleton. by destruct js.
  - rewrite list_elem_of_bind. split.
    + intros (j & (js' & -> & Hjs')%list_elem_of_fmap & Hj%elem_of_seq).
      split; [lia | by apply IH].
    + destruct js as [| j js']; [done |]. intros [Hj Hjs'].
      exists j. split.
      * apply list_elem_of_fmap. exists js'. split; [done | by apply IH].
      * apply elem_of_seq. lia.
Qed.

Lemma draw_vectors_length (i : nat) : length (draw_vectors i) = fact (S i).
Proof.
  induction i as [| i IH]; [done |].
  assert (forall (l : list nat) (vs : list (list nat)),
            length (j ← l; (j ::.) <$> vs) = length l * length vs) as Hbind.
  { intros l vs. induction l as [| a l IHl]; [done |].
    csimpl. rewrite length_app, length_fmap, IHl. lia. }
  cbn [draw_vectors]. rewrite Hbind, length_seq, IH.
  change (fact (S (S i))) with (S (S i) * fact (S i)). lia.
Qed.

Lemma draw_vectors_NoDup (i : nat) : NoDup (draw_vectors i).
Proof.
  induction i as [| i IH]; cbn [draw_vectors].
  - apply NoDup_singleton.
  - apply NoDup_bind; [| | apply NoDup_seq].
    + intros j1 j2 js _ _ (js1 & -> & _)%list_elem_of_fmap
        (js2 & Heq & _)%list_elem_of_fmap.
      by injection Heq.
    + intros j _. by apply (NoDup_fmap_2 _).
Qed.

(** The shuffle and the orderings of its buffer. For a buffer of [n]
    elements there are [n!] possible sequences of draws; every run of the
    shuffle replays one of them, and each of them is the run on some
    entropy; every ordering of the buffer is the outcome of some sequence,
    and on a buffer of distinct elements of exactly one. *)
Theorem shuffle_orderings {A} (x : list A) :
  NoDup (draw_vectors (length x - 1))
  /\ length (draw_vectors (length x - 1)) = fact (length x)
  /\ (forall entropy st,
        exists js, js ∈ draw_vectors (length x - 1)
          /\ shuffle entropy x st
             = (inr (replay (length x - 1) js x), length x - 1 + st))
  /\ (forall js st,
        js ∈ draw_vectors (length x - 1) ->
        shuffle (tape st js) x st
        = (inr (replay (length x - 1) js x), length x - 1 + st))
  /\ (forall y, y ≡ₚ x ->
        exists js, js ∈ draw_vectors (length x - 1)
          /\ replay (length x - 1) js x = y)
  /\ (NoDup x ->
      forall js1 js2,
        js1 ∈ draw_vectors (length x - 1) ->
        js2 ∈ draw_vectors (length x - 1) ->
        replay (length x - 1) js1 x = replay (length x - 1) js2 x ->
        js1 = js2).
Proof.
  split_and!.
  - apply draw_vectors_NoDup.
  - rewrite draw_vectors_length.
    destruct x; [done | cbn [length]; f_equal; lia].
  - intros entropy st. exists (draws entropy (length x - 1) st).
    split; [apply draw_vectors_in_range, draws_in_range |].
    by apply shuffle_from_replay.
  - intros js st Hjs%draw_vectors_in_range. unfold shuffle.
    rewrite shuffle_from_replay by done. by rewrite draws_tape.
  - intros y Hperm. destruct x as [| a x].
    + apply Permutation_nil_r in Hperm as ->.
      exists []. split; [by apply draw_vectors_in_range | done].
    + destruct (replay_reaches (length x) (a :: x) y) as (js & Hjs & Hy);
        [done .. |].
      exists js. replace (length (a :: x) - 1) with (length x)
        by (cbn [length]; lia).
      split; [by apply draw_vectors_in_range | done].
  - intros Hnodup js1 js2 Hjs1%draw_vectors_in_range
      Hjs2%draw_vectors_in_range Heq.
    destruct x as [| a x].
    + by destruct js1, js2.
    + apply (replay_inj (length (a :: x) - 1) (a :: x)); try done.
      cbn [length]. lia.
Qed.

Lemma shuffle_orderings_witness :
  ["b"; "c"; "a"]%char ≡ₚ ["a"; "b"; "c"]%char
  /\ exists js,
       js ∈ draw_vectors (length ["a"; "b"; "c"]%char - 1)
       /\ replay (length ["a"; "b"; "c"]%char - 1) js ["a"; "b"; "c"]%char
          = ["b"; "c"; "a"]%char.
Proof.
  assert (["b"; "c"; "a"]%char ≡ₚ ["a"; "b"; "c"]%char) as Hperm
    by (symmetry; apply (Permutation_cons_append ["b"; "c"]%char)).
  split; [exact Hperm |].
  destruct (shuffle_orderings ["a"; "b"; "c"]%char)
    as (_ & _ & _ & _ & Hreach & _).
  exact (Hreach _ Hperm).
Defined.

(** ** The sampler and the loops *)

Section Sampler.

Variable entropy : nat -> nat.

Lemma choice_ok (seq : string) (st : nat) :
  seq <> "" ->
  exists c, choice entropy seq st = (inr c, S st) /\ c ∈ chars seq.
Proof.
  intros Hne. unfold choice.
  assert (0 < String.length seq) as Hlen by (destruct seq; [done | simpl; lia]).
  destruct (Nat.eqb_spec (String.length seq) 0) as [H0 | _]; [lia |].
  unfold bind, randbelow.
  assert (entropy st mod String.length seq < length (chars seq)) as Hlt.
  { rewrite chars_length. apply Nat.mod_upper_bound. lia. }
  apply lookup_lt_is_Some_2 in Hlt as [c Hc].
  rewrite get_lookup, Hc. exists c. split; [done |].
  by eapply list_elem_of_lookup_2.
Qed.

(** The shuffle returns normally, after [len(x) - 1] draws, with a
    rearrangement of its argument. *)
Lemma shuffle_ok {A} (x : list A) (st : nat) :
  exists x', shuffle entropy x st = (inr x', length x - 1 + st) /\ x' ≡ₚ x.
Proof.
  exists (replay (length x - 1) (draws entropy (length x - 1) st) x).
  split; [by apply shuffle_from_replay | apply replay_Permutation].
Qed.

(** The fill loop terminates normally on a non-empty pool: it appends
    exactly the missing number of characters, each one of the pool. *)
Lemma fill_rest_ok (len : Z) (pool : string) (pcs : list ascii) (st : nat) :
  pool <> "" ->
  exists added,
    fill_rest entropy len pool pcs st = (inr (pcs ++ added), length added + st)
    /\ length added = Z.to_nat (len - Z.of_nat (length pcs))
    /\ Forall (fun c => c ∈ chars pool) added.
Proof.
  intros Hne. funelim (fill_rest entropy len pool pcs st).
  - exists []. rewrite app_nil_r. split_and!; [done | simpl; lia | done].
  - destruct (choice_ok pool st Hne) as (c' & Hc & _). congruence.
  - destruct (choice_ok pool st Hne) as (c' & Hc & Hin).
    rewrite Heq in Hc. injection Hc as -> ->.
    destruct (H Hne) as (added & Hrun & Hlen & Hall).
    exists (c' :: added). rewrite Hrun. split_and!.
    + rewrite <- app_assoc. simpl. f_equal. lia.
    + rewrite length_app in Hlen. simpl in *. lia.
    + by constructor.
Qed.

End Sampler.

(** ** The generator *)

Lemma slice_to_nonneg {A} (lst : list A) (n : Z) :
  (0 <= n)%Z -> slice_to lst n = take (Z.to_nat n) lst.
Proof.
  intros Hn. unfold slice_to. by destruct (Z.ltb_spec n 0); [lia |].
Qed.

Section Generator_facts.

Variable entropy : nat -> nat.

Lemma guarantee_ok (flag : bool) (cat : Category) (pcs : list ascii)
    (st : nat) :
  exists g st',
    guarantee entropy flag (category_pool cat) pcs st = (inr (pcs ++ g), st')
    /\ one_per_category g (if flag then [cat] else []).
Proof.
  unfold guarantee. destruct flag.
  - destruct (choice_ok entropy _ st (category_pool_nonempty cat))
      as (c & Hc & Hin).
    exists [c], (S st). rewrite (bind_inr _ _ _ _ _ Hc).
    split; [done |]. by repeat constructor.
  - exists [], st. rewrite app_nil_r. split; [done | constructor].
Qed.

(** What a call with a positive length and a non-empty selection does:
    it returns normally; the buffer before the shuffle is one character
    per enabled category followed by the fill draws; the result is the
    first [len] characters of a rearrangement of that buffer. *)
Lemma generate_password_run (len : Z) (l u d s : bool) (st : nat) :
  (0 < len)%Z ->
  build_character_pool l u d s <> "" ->
  exists guaranteed added shuffled st',
    generate_password entropy len l u d s st =
      (inr (string_of_list_ascii (take (Z.to_nat len) shuffled)), st')
    /\ shuffled ≡ₚ guaranteed ++ added
    /\ one_per_category guaranteed (enabled_categories (Selection l u d s))
    /\ length added = Z.to_nat (len - Z.of_nat (length guaranteed))
    /\ Forall (fun c => c ∈ chars (build_character_pool l u d s)) added.
Proof.
  intros Hlen Hpool. unfold generate_password.
  destruct (Z.leb_spec len 0) as [? | _]; [lia |].
  destruct (Nat.eqb_spec (String.length (build_character_pool l u d s)) 0)
    as [H0 | _].
  { destruct (build_character_pool l u d s); [done | discriminate]. }
  destruct (guarantee_ok l Lowercase [] st) as (g1 & st1 & R1 & G1).
  destruct (guarantee_ok u Uppercase ([] ++ g1) st1) as (g2 & st2 & R2 & G2).
  destruct (guarantee_ok d Digit (([] ++ g1) ++ g2) st2)
    as (g3 & st3 & R3 & G3).
  destruct (guarantee_ok s Symbol ((([] ++ g1) ++ g2) ++ g3) st3)
    as (g4 & st4 & R4 & G4).
  destruct (fill_rest_ok entropy len _ (((([] ++ g1) ++ g2) ++ g3) ++ g4)
              st4 Hpool) as (added & R5 & Hadded & Hall).
  destruct (shuffle_ok entropy ((((([] ++ g1) ++ g2) ++ g3) ++ g4) ++ added)
              (length added + st4)) as (shuffled & R6 & Hperm).
  simpl category_pool in *.
  rewrite (bind_inr _ _ _ _ _ R1), (bind_inr _ _ _ _ _ R2),
    (bind_inr _ _ _ _ _ R3), (bind_inr _ _ _ _ _ R4),
    (bind_inr _ _ _ _ _ R5), (bind_inr _ _ _ _ _ R6).
  unfold ret. rewrite slice_to_nonneg by lia.
  exists (((([] ++ g1) ++ g2) ++ g3) ++ g4), added, shuffled.
  eexists. split_and!; try done.
  rewrite enabled_categories_flags. simpl.
  rewrite <- !app_assoc. unfold one_per_category.
  by repeat apply Forall2_app.
Qed.

End Generator_facts.

(** ** Categories of characters *)

(** The four pools share no character. *)
Lemma category_pools_disjoint (cat1 cat2 : Category) (c : ascii) :
  c ∈ chars (category_pool cat1) -> c ∈ chars (category_pool cat2) ->
  cat1 = cat2.
Proof.
  intros H1 H2. destruct (decide (cat1 = cat2)) as [| Hne]; [done | exfalso].
  assert (Forall (fun c => c ∉ chars (category_pool cat2))
            (chars (category_pool cat1))) as Hall.
  { destruct cat1, cat2; try done;
      apply (bool_decide_unpack _); vm_compute; exact I. }
  rewrite Forall_forall in Hall. by apply (Hall c).
Qed.

Lemma enabled_categories_elem (sel : CategorySelection) (cat : Category) :
  cat ∈ enabled_categories sel <-> enabled sel cat = true.
Proof.
  unfold enabled_categories. rewrite list_elem_of_filter.
  split; [by intros [? _] | intros H; split; [done |]].
  destruct cat; unfold category_order; repeat constructor.
Qed.

Lemma enabled_categories_NoDup (sel : CategorySelection) :
  NoDup (enabled_categories sel).
Proof.
  apply NoDup_filter. by apply (bool_decide_unpack _).
Qed.

Lemma spec_pool_elem (sel : CategorySelection) (c : ascii) :
  c ∈ spec_pool sel <->
  exists cat, enabled sel cat = true /\ c ∈ chars (category_pool cat).
Proof.
  unfold spec_pool. rewrite list_elem_of_In, in_concat. split.
  - intros (p & Hp & Hc). apply in_map_iff in Hp as (cat & <- & Hcat).
    exists cat. rewrite <- enabled_categories_elem, !list_elem_of_In. done.
  - intros (cat & Hcat & Hc). exists (chars (category_pool cat)).
    rewrite in_map_iff, <- list_elem_of_In. split; [| done].
    exists cat. by rewrite <- list_elem_of_In, enabled_categories_elem.
Qed.

Lemma one_per_category_elem (cs : list ascii) (cats : list Category) :
  one_per_category cs cats ->
  (forall cat, cat ∈ cats -> exists c, c ∈ cs /\ c ∈ chars (category_pool cat))
  /\ (forall c, c ∈ cs -> exists cat, cat ∈ cats /\ c ∈ chars (category_pool cat)).
Proof.
  induction 1 as [| c cat cs cats Hc _ [IH1 IH2]]; split.
  - by intros cat ?%elem_of_nil.
  - by intros c ?%elem_of_nil.
  - intros cat' [-> | Hin]%elem_of_cons.
    + exists c. split; [left | done].
    + destruct (IH1 _ Hin) as (c' & ? & ?). exists c'. split; [by right | done].
  - intros c' [-> | Hin]%elem_of_cons.
    + exists cat. split; [left | done].
    + destruct (IH2 _ Hin) as (cat' & ? & ?).
      exists cat'. split; [by right | done].
Qed.

Lemma category_of_pool (c : ascii) (cat : Category) :
  c ∈ chars (category_pool cat) -> category_of c = Some cat.
Proof.
  intros Hc. unfold category_of, category_order.
  assert (forall cat', c ∈ chars (category_pool cat') -> cat' = cat) as Huniq.
  { intros cat' Hc'. by eapply category_pools_disjoint. }
  destruct cat; repeat (rewrite filter_cons; case_decide); try done;
    match goal with
    | H : c ∈ chars (category_pool _) |- _ => apply Huniq in H; discriminate
    end.
Qed.

Lemma covered_length (cs : list ascii) : length (covered cs) <= length cs.
Proof.
  unfold covered. induction cs as [| c cs IH]; [done |].
  cbn [omap list_omap length]. destruct (category_of c); cbn [length]; lia.
Qed.

(** Fewer characters than enabled categories leave some enabled category
    without any character. *)
Lemma some_category_uncovered (sel : CategorySelection) (cs : list ascii) :
  length cs < category_count sel ->
  exists cat, enabled sel cat = true
    /\ forall c, c ∈ cs -> c ∉ chars (category_pool cat).
Proof.
  intros Hshort.
  destruct (decide (Forall (fun cat => cat ∈ covered cs)
                      (enabled_categories sel))) as [Hall | Hnot].
  - exfalso. rewrite Forall_forall in Hall.
    apply NoDup_submseteq in Hall; [| apply enabled_categories_NoDup].
    apply submseteq_length in Hall. pose proof (covered_length cs).
    unfold category_count in Hshort. lia.
  - apply not_Forall_Exists in Hnot; [| apply _].
    apply Exists_exists in Hnot as (cat & Hcat%enabled_categories_elem & Hno).
    exists cat. split; [done |]. intros c Hc Hin. apply Hno.
    unfold covered. apply list_elem_of_omap. exists c.
    split; [done | by apply category_of_pool].
Qed.

(** ** Runs of the generator *)

Lemma build_pool_nonempty (sel : CategorySelection) :
  category_count sel <> 0 -> build_pool sel <> "".
Proof. by destruct sel as [[] [] [] []]. Qed.

Lemma generate_run (entropy : nat -> nat) (len : Z) (sel : CategorySelection)
    (st : nat) :
  (1 <= len)%Z ->
  category_count sel <> 0 ->
  exists guaranteed added shuffled st',
    generate entropy len sel st =
      (inr (string_of_list_ascii (take (Z.to_nat len) shuffled)), st')
    /\ shuffled ≡ₚ guaranteed ++ added
    /\ one_per_category guaranteed (enabled_categories sel)
    /\ length guaranteed = category_count sel
    /\ length added = Z.to_nat (len - Z.of_nat (category_count sel))
    /\ Forall (fun c => c ∈ spec_pool sel) added.
Proof.
  intros Hlen Hsel. pose proof (build_pool_nonempty sel Hsel) as Hpool.
  destruct sel as [l u d s]. unfold generate, build_pool in *. simpl in *.
  destruct (generate_password_run entropy len l u d s st)
    as (guaranteed & added & shuffled & st' & Hrun & Hperm & Hg & Hadd & Hall);
    [lia | done |].
  exists guaranteed, added, shuffled, st'.
  assert (length guaranteed = category_count (Selection l u d s)) as Hk
    by apply (Forall2_length _ _ _ Hg).
  split_and!; try done.
  - by rewrite <- Hk.
  - by rewrite <- build_character_pool_spec_pool.
Qed.

(** With a length that covers the enabled categories nothing is cut off:
    the result is a rearrangement of the whole buffer. *)
Lemma generate_run_valid (entropy : nat -> nat) (len : Z)
    (sel : CategorySelection) (st : nat) :
  (1 <= len)%Z ->
  category_count sel <> 0 ->
  (Z.of_nat (category_count sel) <= len)%Z ->
  exists guaranteed added shuffled st',
    generate entropy len sel st = (inr (string_of_list_ascii shuffled), st')
    /\ shuffled ≡ₚ guaranteed ++ added
    /\ one_per_category guaranteed (enabled_categories sel)
    /\ Z.of_nat (length shuffled) = len
    /\ Forall (fun c => c ∈ spec_pool sel) added.
Proof.
  intros Hlen Hsel Hk.
  destruct (generate_run entropy len sel st Hlen Hsel)
    as (guaranteed & added & shuffled & st' & Hrun & Hperm & Hg & Hgl & Hadd
        & Hall).
  exists guaranteed, added, shuffled, st'.
  assert (Z.of_nat (length shuffled) = len) as Hsl.
  { rewrite Hperm, length_app. lia. }
  split_and!; try done.
  rewrite Hrun. by rewrite take_ge by lia.
Qed.

(** What a call does when the length is positive but smaller than the
    number of enabled categories: the buffer holds one character per
    enabled category, no fill draw is made, and the result is the first
    [len] characters of the shuffled buffer. *)
Lemma generate_run_short (entropy : nat -> nat) (len : Z)
    (sel : CategorySelection) (st : nat) :
  (1 <= len)%Z ->
  (len < Z.of_nat (category_count sel))%Z ->
  exists guaranteed shuffled st',
    generate entropy len sel st =
      (inr (string_of_list_ascii (take (Z.to_nat len) shuffled)), st')
    /\ shuffled ≡ₚ guaranteed
    /\ one_per_category guaranteed (enabled_categories sel)
    /\ length shuffled = category_count sel.
Proof.
  intros Hlen Hk.
  destruct (generate_run entropy len sel st Hlen ltac:(lia))
    as (guaranteed & added & shuffled & st' & Hrun & Hperm & Hg & Hgl & Hadd
        & _).
  assert (added = []) as -> by (apply nil_length_inv; lia).
  rewrite app_nil_r in Hperm.
  exists guaranteed, shuffled, st'. split_and!; try done.
  by rewrite Hperm.
Qed.

(** ** The run on a length below the number of categories, draw by draw *)

Section Short_run.

Variable entropy : nat -> nat.

Lemma choice_exact (seq : string) (st : nat) :
  seq <> "" -> choice entropy seq st = (inr (chosen entropy seq st), S st).
Proof.
  intros Hne. unfold choice, chosen.
  assert (0 < String.length seq) as Hlen by (destruct seq; [done | simpl; lia]).
  destruct (Nat.eqb_spec (String.length seq) 0) as [H0 | _]; [lia |].
  unfold bind, randbelow.
  assert (entropy st mod String.length seq < length (chars seq)) as Hlt.
  { rewrite chars_length. apply Nat.mod_upper_bound. lia. }
  apply lookup_lt_is_Some_2 in Hlt as [c Hc].
  by rewrite get_lookup, nth_lookup, Hc.
Qed.

Lemma guarantee_exact (flag : bool) (cat : Category) (pcs : list ascii)
    (st : nat) :
  guarantee entropy flag (category_pool cat) pcs st
  = (inr (pcs ++ guaranteed_chars entropy (if flag then [cat] else []) st),
     (if flag then 1 else 0) + st).
Proof.
  unfold guarantee. destruct flag.
  - by rewrite (bind_inr _ _ _ _ _
                  (choice_exact _ st (category_pool_nonempty cat))).
  - by rewrite app_nil_r.
Qed.

Lemma guaranteed_chars_one_per_category (cats : list Category) (st : nat) :
  one_per_category (guaranteed_chars entropy cats st) cats.
Proof.
  revert st. induction cats as [| cat cats IH]; intros st; [constructor |].
  constructor; [| apply IH].
  destruct (choice_ok entropy _ st (category_pool_nonempty cat))
    as (c & Hc & Hin).
  rewrite choice_exact in Hc by apply category_pool_nonempty.
  by injection Hc as ->.
Qed.

Lemma guaranteed_chars_length (cats : list Category) (st : nat) :
  length (guaranteed_chars entropy cats st) = length cats.
Proof.
  revert st. induction cats as [| cat cats IH]; intros st; [done |].
  simpl. by rewrite IH.
Qed.

(** The fill loop makes no draw when the buffer is long enough. *)
Lemma fill_rest_full (len : Z) (pool : string) (pcs : list ascii) (st : nat) :
  (len <= Z.of_nat (length pcs))%Z ->
  fill_rest entropy len pool pcs st = (inr pcs, st).
Proof.
  intros Hfull. funelim (fill_rest entropy len pool pcs st); [done | lia ..].
Qed.

(** With more enabled categories than [len], the call is the slice of the
    shuffle of the guaranteed buffer, the shuffle starting right after the
    draws of the guarantee step. *)
Lemma generate_password_short (len : Z) (l u d s : bool) (st : nat) :
  (0 < len)%Z ->
  (len < Z.of_nat (category_count (Selection l u d s)))%Z ->
  generate_password entropy len l u d s st
  = bind (shuffle entropy
            (guaranteed_chars entropy
               (enabled_categories (Selection l u d s)) st))
      (fun shuffled => ret (string_of_list_ascii (slice_to shuffled len)))
      (category_count (Selection l u d s) + st).
Proof.
  intros Hlen Hk. unfold generate_password.
  destruct (Z.leb_spec len 0) as [? | _]; [lia |].
  destruct (Nat.eqb_spec (String.length (build_character_pool l u d s)) 0)
    as [H0 | _].
  { exfalso. destruct l, u, d, s; try discriminate H0.
    vm_compute in Hk. by destruct len. }
  pose proof (guarantee_exact l Lowercase []) as R1.
  pose proof (guarantee_exact u Uppercase) as R2.
  pose proof (guarantee_exact d Digit) as R3.
  pose proof (guarantee_exact s Symbol) as R4.
  cbn [category_pool] in R1, R2, R3, R4.
  rewrite (bind_inr _ _ _ _ _ (R1 st)), (bind_inr _ _ _ _ _ (R2 _ _)),
    (bind_inr _ _ _ _ _ (R3 _ _)), (bind_inr _ _ _ _ _ (R4 _ _)).
  clear R1 R2 R3 R4.
  assert (forall buffer st4,
            buffer = guaranteed_chars entropy
                       (enabled_categories (Selection l u d s)) st ->
            st4 = category_count (Selection l u d s) + st ->
            bind (fill_rest entropy len (build_character_pool l u d s) buffer)
              (fun password_chars =>
                 bind (shuffle entropy password_chars)
                   (fun password_chars =>
                      ret (string_of_list_ascii
                             (slice_to password_chars len)))) st4
            = bind (shuffle entropy
                      (guaranteed_chars entropy
                         (enabled_categories (Selection l u d s)) st))
                (fun shuffled =>
                   ret (string_of_list_ascii (slice_to shuffled len)))
                (category_count (Selection l u d s) + st)) as Hrest.
  { intros buffer st4 -> ->.
    erewrite bind_inr; [done |]. apply fill_rest_full.
    rewrite guaranteed_chars_length. unfold category_count in Hk. lia. }
  apply Hrest; by destruct l, u, d, s.
Qed.

End Short_run.

(** * The claims *)

(** C1. The check the claim describes is missing from the code. The
    request for 2 characters over Lowercase, Uppercase and Digit raises no
    error: with the all-zero entropy it returns [A0], which has no
    lowercase letter although Lowercase was selected, against the
    function's own docstring ("Ensures at least one character from each
    selected category is present") and the comment of its guarantee step
    ("Guarantee at least one of each chosen type"). *)
Lemma generate_password_short_length_drops_category :
  generate zero_entropy 2 (Selection true true true false) 0 = (inr "A0", 5)
  /\ enabled (Selection true true true false) Lowercase = true
  /\ (forall c, c ∈ chars "A0" -> c ∉ chars (category_pool Lowercase))
  /\ ~ exists e st',
         generate zero_entropy 2 (Selection true true true false) 0
         = (inl e, st').
Proof.
  assert (generate zero_entropy 2 (Selection true true true false) 0
          = (inr "A0", 5)) as Hrun by by vm_compute.
  split_and!; [done | done | |].
  - apply Forall_forall. apply (bool_decide_unpack _). by vm_compute.
  - intros (e & st' & Herr). congruence.
Qed.

(** C2 (length invariant). For every valid request, that is an integer
    length of at least 1, at least one enabled category, and a length no
    smaller than the number of enabled categories, [generate_password]
    returns normally, whatever the entropy, and the returned string has
    exactly [len] characters. *)
Theorem generate_password_length (entropy : nat -> nat) (len : Z)
    (sel : CategorySelection) (st : nat) :
  (1 <= len)%Z ->
  category_count sel <> 0 ->
  (Z.of_nat (category_count sel) <= len)%Z ->
  exists password st',
    generate entropy len sel st = (inr password, st')
    /\ Z.of_nat (String.length password) = len.
Proof.
  intros Hlen Hsel Hk.
  destruct (generate_run_valid entropy len sel st Hlen Hsel Hk)
    as (_ & _ & shuffled & st' & Hrun & _ & _ & Hsl & _).
  exists (string_of_list_ascii shuffled), st'.
  by rewrite string_length_of_list.
Qed.

Lemma generate_password_length_witness :
  (1 <= 12)%Z /\ category_count (Selection true true true true) <> 0
  /\ (Z.of_nat (category_count (Selection true true true true)) <= 12)%Z
  /\ exists password st',
       generate affine_entropy 12 (Selection true true true true) 0
         = (inr password, st')
       /\ Z.of_nat (String.length password) = 12%Z.
Proof.
  split; [lia |]. split; [by vm_compute |]. split; [by vm_compute |].
  apply (generate_password_length affine_entropy 12
           (Selection true true true true) 0); [lia | by vm_compute ..].
Defined.

(** C3 (category coverage). For every valid request and every enabled
    category, the returned string contains at least one character of that
    category's own pool. *)
Theorem generate_password_category_coverage (entropy : nat -> nat) (len : Z)
    (sel : CategorySelection) (st : nat) :
  (1 <= len)%Z ->
  category_count sel <> 0 ->
  (Z.of_nat (category_count sel) <= len)%Z ->
  exists password st',
    generate entropy len sel st = (inr password, st')
    /\ forall cat, enabled sel cat = true ->
         exists c, c ∈ chars password /\ c ∈ chars (category_pool cat).
Proof.
  intros Hlen Hsel Hk.
  destruct (generate_run_valid entropy len sel st Hlen Hsel Hk)
    as (guaranteed & added & shuffled & st' & Hrun & Hperm & Hg & _ & _).
  exists (string_of_list_ascii shuffled), st'. split; [done |].
  intros cat Hcat%enabled_categories_elem.
  destruct (one_per_category_elem _ _ Hg) as [Hcover _].
  destruct (Hcover cat Hcat) as (c & Hc & Hin).
  exists c. split; [| done].
  unfold chars. rewrite list_ascii_of_string_of_list_ascii, Hperm.
  apply elem_of_app. by left.
Qed.

Lemma generate_password_category_coverage_witness :
  (1 <= 4)%Z /\ category_count (Selection true true true true) <> 0
  /\ (Z.of_nat (category_count (Selection true true true true)) <= 4)%Z
  /\ exists password st',
       generate affine_entropy 4 (Selection true true true true) 0
         = (inr password, st')
       /\ forall cat, enabled (Selection true true true true) cat = true ->
            exists c, c ∈ chars password /\ c ∈ chars (category_pool cat).
Proof.
  split; [lia |]. split; [by vm_compute |]. split; [by vm_compute |].
  apply (generate_password_category_coverage affine_entropy 4
           (Selection true true true true) 0); [lia | by vm_compute ..].
Defined.

(** C4 (closure). For every valid request, every character of the returned
    string belongs to the pool of some enabled category, and to the pool of
    no disabled category. *)
Theorem generate_password_closure (entropy : nat -> nat) (len : Z)
    (sel : CategorySelection) (st : nat) :
  (1 <= len)%Z ->
  category_count sel <> 0 ->
  (Z.of_nat (category_count sel) <= len)%Z ->
  exists password st',
    generate entropy len sel st = (inr password, st')
    /\ forall c, c ∈ chars password ->
         (exists cat, enabled sel cat = true /\ c ∈ chars (category_pool cat))
         /\ (forall cat, enabled sel cat = false ->
               c ∉ chars (category_pool cat)).
Proof.
  intros Hlen Hsel Hk.
  destruct (generate_run_valid entropy len sel st Hlen Hsel Hk)
    as (guaranteed & added & shuffled & st' & Hrun & Hperm & Hg & _ & Hall).
  exists (string_of_list_ascii shuffled), st'. split; [done |].
  intros c Hc. unfold chars in Hc at 1.
  rewrite list_ascii_of_string_of_list_ascii, Hperm in Hc.
  assert (exists cat, enabled sel cat = true /\ c ∈ chars (category_pool cat))
    as (cat & Hcat & Hin).
  { apply elem_of_app in Hc as [Hc | Hc].
    - destruct (one_per_category_elem _ _ Hg) as [_ Hfrom].
      destruct (Hfrom c Hc) as (cat & Hcat%enabled_categories_elem & Hin).
      by exists cat.
    - rewrite Forall_forall in Hall. by apply spec_pool_elem, Hall. }
  split; [by exists cat |].
  intros cat' Hoff Hin'.
  assert (cat = cat') as -> by by eapply category_pools_disjoint.
  congruence.
Qed.

Lemma generate_password_closure_witness :
  (1 <= 9)%Z /\ category_count (Selection true false true false) <> 0
  /\ (Z.of_nat (category_count (Selection true false true false)) <= 9)%Z
  /\ exists password st',
       generate affine_entropy 9 (Selection true false true false) 0
         = (inr password, st')
       /\ forall c, c ∈ chars password ->
            (exists cat, enabled (Selection true false true false) cat = true
                         /\ c ∈ chars (category_pool cat))
            /\ (forall cat,
                  enabled (Selection true false true false) cat = false ->
                  c ∉ chars (category_pool cat)).
Proof.
  split; [lia |]. split; [by vm_compute |]. split; [by vm_compute |].
  apply (generate_password_closure affine_entropy 9
           (Selection true false true false) 0); [lia | by vm_compute ..].
Defined.

(** C5 (invalid length). For every integer length below 1 and every
    selection, the empty one included, [generate_password] raises the
    [InvalidLength] error before drawing anything and returns no
    password. *)
Theorem generate_password_invalid_length (entropy : nat -> nat) (len : Z)
    (sel : CategorySelection) (st : nat) :
  (len < 1)%Z ->
  generate entropy len sel st = (inl InvalidLength, st).
Proof.
  intros Hlen. unfold generate, generate_password.
  by destruct (Z.leb_spec len 0); [| lia].
Qed.

Lemma generate_password_invalid_length_witness :
  (0 < 1)%Z
  /\ generate zero_entropy 0 (Selection true false false false) 0
     = (inl InvalidLength, 0).
Proof.
  split; [lia |].
  apply (generate_password_invalid_length zero_entropy 0
           (Selection true false false false) 0); lia.
Defined.

(** C6 (no category). For every integer length of at least 1 and the empty
    selection, [generate_password] raises the [NoCategorySelected] error
    before drawing anything and returns no password. *)
Theorem generate_password_no_category (entropy : nat -> nat) (len : Z)
    (st : nat) :
  (1 <= len)%Z ->
  generate entropy len no_category st = (inl NoCategorySelected, st).
Proof.
  intros Hlen. unfold generate, generate_password.
  by destruct (Z.leb_spec len 0); [lia |].
Qed.

Lemma generate_password_no_category_witness :
  (1 <= 5)%Z
  /\ generate zero_entropy 5 no_category 0 = (inl NoCategorySelected, 0).
Proof.
  split; [lia |].
  apply (generate_password_no_category zero_entropy 5 0); lia.
Defined.

(** C7, as stated, fails: on the empty selection [build_character_pool]
    returns the empty pool to its caller. *)
Lemma build_character_pool_returns_empty_pool :
  build_character_pool false false false false = "".
Proof. reflexivity. Qed.

(** C7, amended. [build_character_pool] raises nothing: it returns the
    empty pool exactly when no category is enabled, and it is its caller
    [generate_password] that raises [NoCategorySelected] on receiving the
    empty pool. *)
Theorem build_character_pool_empty_pool (sel : CategorySelection) :
  (build_pool sel = "" <-> category_count sel = 0)
  /\ forall entropy len st,
       (1 <= len)%Z -> build_pool sel = "" ->
       generate entropy len sel st = (inl NoCategorySelected, st).
Proof.
  split.
  - by destruct sel as [[] [] [] []].
  - intros entropy len st Hlen Hpool. unfold generate, generate_password.
    unfold build_pool in Hpool. rewrite Hpool.
    by destruct (Z.leb_spec len 0); [lia |].
Qed.

Lemma build_character_pool_empty_pool_witness :
  (1 <= 3)%Z /\ build_pool no_category = ""
  /\ generate affine_entropy 3 no_category 0 = (inl NoCategorySelected, 0).
Proof.
  split; [lia |]. split; [reflexivity |].
  apply (build_character_pool_empty_pool no_category);
    [lia | reflexivity].
Defined.

(** C8 (pool contents). For every selection [build_character_pool] returns
    exactly the pools of the enabled categories concatenated in the order
    Lowercase, Uppercase, Digit, Symbol, each pool in its own character
    order; the Symbol pool is the 26 characters
    [!@#$%^&*()-_=+[]{};:,.?/\|]. *)
Theorem build_character_pool_concatenation (sel : CategorySelection) :
  chars (build_pool sel) = spec_pool sel
  /\ build_pool sel =
       (if include_lower sel then category_pool Lowercase else "") +:+
       (if include_upper sel then category_pool Uppercase else "") +:+
       (if include_digits sel then category_pool Digit else "") +:+
       (if include_symbols sel then category_pool Symbol else "")
  /\ chars (category_pool Symbol) =
       ["!"; "@"; "#"; "$"; "%"; "^"; "&"; "*"; "("; ")"; "-"; "_"; "=";
        "+"; "["; "]"; "{"; "}"; ";"; ":"; ","; "."; "?"; "/"; "\"; "|"]%char
  /\ length (chars (category_pool Symbol)) = 26.
Proof.
  split_and!; [| | reflexivity ..].
  - destruct sel. apply build_character_pool_spec_pool.
  - by destruct sel as [[] [] [] []].
Qed.

(** C10 (truncation). For every integer length of at least 1 and every
    selection with more enabled categories than [len], [generate_password]
    raises no error. Its working buffer is the one character chosen for
    each enabled category, no fill draw is made, and [shuffled] is what the
    shuffle returns on that buffer, called right after the guarantee
    draws; the returned string is the first [len] characters of
    [shuffled], so it has exactly [len] characters and leaves at least one
    enabled category without a character. *)
Theorem generate_password_truncates (entropy : nat -> nat) (len : Z)
    (sel : CategorySelection) (st : nat) :
  (1 <= len)%Z ->
  (len < Z.of_nat (category_count sel))%Z ->
  exists shuffled password st',
    shuffle entropy (guaranteed_chars entropy (enabled_categories sel) st)
      (category_count sel + st) = (inr shuffled, st')
    /\ generate entropy len sel st = (inr password, st')
    /\ st' = 2 * category_count sel - 1 + st
    /\ one_per_category (guaranteed_chars entropy (enabled_categories sel) st)
         (enabled_categories sel)
    /\ shuffled ≡ₚ guaranteed_chars entropy (enabled_categories sel) st
    /\ (Z.of_nat (length shuffled) > len)%Z
    /\ password = string_of_list_ascii (slice_to shuffled len)
    /\ chars password = take (Z.to_nat len) shuffled
    /\ Z.of_nat (String.length password) = len
    /\ exists cat, enabled sel cat = true
         /\ forall c, c ∈ chars password -> c ∉ chars (category_pool cat).
Proof.
  intros Hlen Hk.
  destruct (shuffle_ok entropy
              (guaranteed_chars entropy (enabled_categories sel) st)
              (category_count sel + st)) as (shuffled & Hshuffle & Hperm).
  pose proof (guaranteed_chars_length entropy (enabled_categories sel) st)
    as Hgl. fold (category_count sel) in Hgl.
  assert (length shuffled = category_count sel) as Hsl by by rewrite Hperm.
  rewrite Hgl in Hshuffle.
  exists shuffled, (string_of_list_ascii (slice_to shuffled len)),
    (category_count sel - 1 + (category_count sel + st)).
  split; [exact Hshuffle |].
  assert (length (take (Z.to_nat len) shuffled) = Z.to_nat len) as Htl
    by (rewrite length_take; lia).
  split_and!; try done.
  - destruct sel as [l u d s]. unfold generate.
    cbn [include_lower include_upper include_digits include_symbols].
    rewrite generate_password_short by (lia || done).
    by rewrite (bind_inr _ _ _ _ _ Hshuffle).
  - lia.
  - apply guaranteed_chars_one_per_category.
  - lia.
  - rewrite slice_to_nonneg by lia. apply list_ascii_of_string_of_list_ascii.
  - rewrite slice_to_nonneg by lia. rewrite string_length_of_list. lia.
  - rewrite slice_to_nonneg by lia. unfold chars at 1.
    rewrite list_ascii_of_string_of_list_ascii.
    apply some_category_uncovered. lia.
Qed.

Lemma generate_password_truncates_witness :
  (1 <= 2)%Z
  /\ (2 < Z.of_nat (category_count (Selection true true true false)))%Z
  /\ exists shuffled password st',
       shuffle zero_entropy
         (guaranteed_chars zero_entropy
            (enabled_categories (Selection true true true false)) 0)
         (category_count (Selection true true true false) + 0)
       = (inr shuffled, st')
       /\ generate zero_entropy 2 (Selection true true true false) 0
          = (inr password, st')
       /\ st' = 2 * category_count (Selection true true true false) - 1 + 0
       /\ one_per_category
            (guaranteed_chars zero_entropy
               (enabled_categories (Selection true true true false)) 0)
            (enabled_categories (Selection true true true false))
       /\ shuffled
          ≡ₚ guaranteed_chars zero_entropy
               (enabled_categories (Selection true true true false)) 0
       /\ (Z.of_nat (length shuffled) > 2)%Z
       /\ password = string_of_list_ascii (slice_to shuffled 2)
       /\ chars password = take (Z.to_nat 2) shuffled
       /\ Z.of_nat (String.length password) = 2%Z
       /\ exists cat, enabled (Selection true true true false) cat = true
            /\ forall c, c ∈ chars password -> c ∉ chars (category_pool cat).
Proof.
  split; [lia |]. split; [by vm_compute |].
  apply (generate_password_truncates zero_entropy 2
           (Selection true true true false) 0); [lia | by vm_compute].
Defined.

(** * Further properties of the generator *)

(** A call that returns was made with a positive length and a non-empty
    selection. *)
Lemma generate_returns_inv (entropy : nat -> nat) (len : Z)
    (sel : CategorySelection) (st st' : nat) (password : string) :
  generate entropy len sel st = (inr password, st') ->
  (1 <= len)%Z /\ category_count sel <> 0.
Proof.
  unfold generate, generate_password. intros Hrun.
  destruct (Z.leb_spec len 0) as [? | ?]; [done |]. split; [lia |].
  intros Hnone. by destruct sel as [[] [] [] []].
Qed.

(** The characters of the buffer: each belongs to an enabled category and
    to no disabled one. *)
Lemma buffer_closure (sel : CategorySelection) (guaranteed added : list ascii)
    (c : ascii) :
  one_per_category guaranteed (enabled_categories sel) ->
  Forall (fun c => c ∈ spec_pool sel) added ->
  c ∈ guaranteed ++ added ->
  (exists cat, enabled sel cat = true /\ c ∈ chars (category_pool cat))
  /\ (forall cat, enabled sel cat = false -> c ∉ chars (category_pool cat)).
Proof.
  intros Hg Hall Hc.
  assert (exists cat, enabled sel cat = true /\ c ∈ chars (category_pool cat))
    as (cat & Hcat & Hin).
  { apply elem_of_app in Hc as [Hc | Hc].
    - destruct (one_per_category_elem _ _ Hg) as [_ Hfrom].
      destruct (Hfrom c Hc) as (cat & Hcat%enabled_categories_elem & Hin).
      by exists cat.
    - rewrite Forall_forall in Hall. by apply spec_pool_elem, Hall. }
  split; [by exists cat |].
  intros cat' Hoff Hin'.
  assert (cat = cat') as -> by by eapply category_pools_disjoint.
  congruence.
Qed.

(** The outcomes of a call. [generate_password] raises [InvalidLength]
    exactly for a length of at most 0, raises [NoCategorySelected] exactly
    for a positive length with no category enabled, and returns a password
    in every other case; in particular no [IndexError] of the sampler or of
    the shuffle ever escapes. *)
Theorem generate_password_outcomes (entropy : nat -> nat) (len : Z)
    (sel : CategorySelection) (st : nat) :
  match fst (generate entropy len sel st) with
  | inl e =>
      (e = InvalidLength /\ (len <= 0)%Z)
      \/ (e = NoCategorySelected /\ (0 < len)%Z /\ category_count sel = 0)
  | inr _ => (0 < len)%Z /\ category_count sel <> 0
  end.
Proof.
  destruct (Z.leb_spec len 0) as [Hle | Hlt].
  - assert (generate entropy len sel st = (inl InvalidLength, st)) as ->.
    { unfold generate, generate_password.
      by destruct (Z.leb_spec len 0); [| lia]. }
    left. done.
  - destruct (decide (category_count sel = 0)) as [Hnone | Hsome].
    + assert (generate entropy len sel st = (inl NoCategorySelected, st))
        as ->.
      { assert (sel = no_category) as -> by by destruct sel as [[] [] [] []].
        unfold generate, generate_password.
        by destruct (Z.leb_spec len 0); [lia |]. }
      right. done.
    + destruct (generate_run entropy len sel st ltac:(lia) Hsome)
        as (? & ? & ? & ? & -> & _). simpl. split; [lia | done].
Qed.

(** Every password that [generate_password] returns, also for a length
    below the number of enabled categories, has exactly [len] characters,
    each from the pool of an enabled category and none from the pool of a
    disabled one. *)
Theorem generate_password_returned_password (entropy : nat -> nat) (len : Z)
    (sel : CategorySelection) (st st' : nat) (password : string) :
  generate entropy len sel st = (inr password, st') ->
  Z.of_nat (String.length password) = len
  /\ forall c, c ∈ chars password ->
       (exists cat, enabled sel cat = true /\ c ∈ chars (category_pool cat))
       /\ (forall cat, enabled sel cat = false ->
             c ∉ chars (category_pool cat)).
Proof.
  intros Hrun.
  destruct (generate_returns_inv _ _ _ _ _ _ Hrun) as [Hlen Hsel].
  destruct (generate_run entropy len sel st Hlen Hsel)
    as (guaranteed & added & shuffled & st'' & Hrun' & Hperm & Hg & Hgl & Hadd
        & Hall).
  rewrite Hrun' in Hrun. injection Hrun as <- <-.
  assert (Z.to_nat len <= length shuffled) as Hfit.
  { rewrite Hperm, length_app. lia. }
  split.
  - rewrite string_length_of_list, length_take. lia.
  - intros c Hc. unfold chars in Hc.
    rewrite list_ascii_of_string_of_list_ascii in Hc.
    apply (buffer_closure sel guaranteed added); [done .. |].
    rewrite <- Hperm. by eapply subseteq_take.
Qed.

Lemma generate_password_returned_password_witness :
  generate affine_entropy 3 (Selection true true true true) 0
    = (inr "dK7", 7)
  /\ Z.of_nat (String.length "dK7") = 3%Z
  /\ forall c, c ∈ chars "dK7" ->
       (exists cat, enabled (Selection true true true true) cat = true
                    /\ c ∈ chars (category_pool cat))
       /\ (forall cat, enabled (Selection true true true true) cat = false ->
             c ∉ chars (category_pool cat)).
Proof.
  assert (generate affine_entropy 3 (Selection true true true true) 0
          = (inr "dK7", 7)) as Hrun by by vm_compute.
  split; [done |].
  apply (generate_password_returned_password affine_entropy 3
           (Selection true true true true) 0 7 "dK7" Hrun).
Defined.

Lemma one_per_category_none (cs : list ascii) (cats : list Category)
    (cat : Category) :
  one_per_category cs cats -> cat ∉ cats -> of_category cat cs = [].
Proof.
  unfold of_category.
  induction 1 as [| c cat' cs cats Hc _ IH]; intros Hnot; [done |].
  apply not_elem_of_cons in Hnot as [Hne Hnot].
  rewrite filter_cons_False; [by apply IH |].
  intros Hin. apply Hne. by eapply category_pools_disjoint.
Qed.

Lemma one_per_category_once (cs : list ascii) (cats : list Category)
    (cat : Category) :
  one_per_category cs cats -> NoDup cats -> cat ∈ cats ->
  length (of_category cat cs) = 1.
Proof.
  unfold of_category.
  induction 1 as [| c cat' cs cats Hc Hrest IH]; intros Hnodup Hin.
  - by apply elem_of_nil in Hin.
  - apply NoDup_cons in Hnodup as [Hfresh Hnodup].
    destruct (decide (cat' = cat)) as [-> | Hne].
    + rewrite filter_cons_True by done.
      pose proof (one_per_category_none _ _ _ Hrest Hfresh) as Hnone.
      unfold of_category in Hnone. by rewrite Hnone.
    + rewrite filter_cons_False.
      * apply IH; [done |]. apply elem_of_cons in Hin as [-> | Hin]; done.
      * intros Hin'. apply Hne. by eapply category_pools_disjoint.
Qed.

(** The docstring's promise and the length. For a positive length and a
    non-empty selection the returned password has a character of every
    enabled category exactly when the length is at least the number of
    enabled categories. *)
Theorem generate_password_coverage_iff (entropy : nat -> nat) (len : Z)
    (sel : CategorySelection) (st : nat) :
  (1 <= len)%Z ->
  category_count sel <> 0 ->
  exists password st',
    generate entropy len sel st = (inr password, st')
    /\ ((forall cat, enabled sel cat = true ->
           exists c, c ∈ chars password /\ c ∈ chars (category_pool cat))
        <-> (Z.of_nat (category_count sel) <= len)%Z).
Proof.
  intros Hlen Hsel.
  destruct (decide (Z.of_nat (category_count sel) <= len)%Z) as [Hk | Hk].
  - destruct (generate_run_valid entropy len sel st Hlen Hsel Hk)
      as (guaranteed & added & shuffled & st' & Hrun & Hperm & Hg & _ & _).
    exists (string_of_list_ascii shuffled), st'. split; [done |].
    split; [done |]. intros _ cat Hcat%enabled_categories_elem.
    destruct (one_per_category_elem _ _ Hg) as [Hcover _].
    destruct (Hcover cat Hcat) as (c & Hc & Hin).
    exists c. split; [| done].
    unfold chars. rewrite list_ascii_of_string_of_list_ascii, Hperm.
    apply elem_of_app. by left.
  - destruct (generate_run_short entropy len sel st Hlen ltac:(lia))
      as (guaranteed & shuffled & st' & Hrun & Hperm & Hg & Hsl).
    eexists _, st'. split; [done |].
    split; [| done]. intros Hcover. exfalso.
    destruct (some_category_uncovered sel (take (Z.to_nat len) shuffled))
      as (cat & Hcat & Hnone).
    { rewrite length_take. lia. }
    destruct (Hcover cat Hcat) as (c & Hc & Hin).
    unfold chars in Hc at 1.
    rewrite list_ascii_of_string_of_list_ascii in Hc.
    by apply (Hnone c).
Qed.

Lemma generate_password_coverage_iff_witness :
  (1 <= 2)%Z /\ category_count (Selection true false true true) <> 0
  /\ exists password st',
       generate zero_entropy 2 (Selection true false true true) 0
         = (inr password, st')
       /\ ((forall cat,
              enabled (Selection true false true true) cat = true ->
              exists c, c ∈ chars password /\ c ∈ chars (category_pool cat))
           <-> (Z.of_nat (category_count (Selection true false true true))
                <= 2)%Z).
Proof.
  split; [lia |]. split; [by vm_compute |].
  apply (generate_password_coverage_iff zero_entropy 2
           (Selection true false true true) 0); [lia | by vm_compute].
Defined.

(** A length equal to the number of enabled categories. The returned
    password then consists of exactly one character of each enabled
    category. *)
Theorem generate_password_one_of_each (entropy : nat -> nat) (len : Z)
    (sel : CategorySelection) (st : nat) :
  (1 <= len)%Z ->
  len = Z.of_nat (category_count sel) ->
  exists password st',
    generate entropy len sel st = (inr password, st')
    /\ length (chars password) = category_count sel
    /\ forall cat, enabled sel cat = true ->
         length (of_category cat (chars password)) = 1.
Proof.
  intros Hlen Hk.
  destruct (generate_run_valid entropy len sel st Hlen ltac:(lia) ltac:(lia))
    as (guaranteed & added & shuffled & st' & Hrun & Hperm & Hg & Hsl & _).
  pose proof (Forall2_length _ _ _ Hg) as Hgl. fold (category_count sel) in Hgl.
  assert (added = []) as ->.
  { apply nil_length_inv. rewrite Hperm, length_app in Hsl. lia. }
  rewrite app_nil_r in Hperm.
  exists (string_of_list_ascii shuffled), st'.
  unfold chars at 1 2. rewrite list_ascii_of_string_of_list_ascii.
  split_and!; [done | by rewrite Hperm |].
  intros cat Hcat%enabled_categories_elem.
  unfold of_category. rewrite Hperm.
  by apply (one_per_category_once guaranteed (enabled_categories sel));
    [| apply enabled_categories_NoDup |].
Qed.

Lemma generate_password_one_of_each_witness :
  (1 <= 4)%Z
  /\ 4%Z = Z.of_nat (category_count (Selection true true true true))
  /\ exists password st',
       generate affine_entropy 4 (Selection true true true true) 0
         = (inr password, st')
       /\ length (chars password)
          = category_count (Selection true true true true)
       /\ forall cat, enabled (Selection true true true true) cat = true ->
            length (of_category cat (chars password)) = 1.
Proof.
  split; [lia |]. split; [reflexivity |].
  apply (generate_password_one_of_each affine_entropy 4
           (Selection true true true true) 0); [lia | reflexivity].
Defined.

(** ** Entropy consumed *)

Section Draw_count.

Variable entropy : nat -> nat.

Lemma guarantee_draws (flag : bool) (cat : Category) (pcs : list ascii)
    (st : nat) :
  exists g,
    guarantee entropy flag (category_pool cat) pcs st
      = (inr (pcs ++ g), length g + st)
    /\ length g = if flag then 1 else 0.
Proof.
  unfold guarantee. destruct flag.
  - destruct (choice_ok entropy _ st (category_pool_nonempty cat))
      as (c & Hc & _).
    exists [c]. by rewrite (bind_inr _ _ _ _ _ Hc).
  - exists []. by rewrite app_nil_r.
Qed.

Lemma generate_password_draws (len : Z) (l u d s : bool) (st : nat) :
  (0 < len)%Z ->
  build_character_pool l u d s <> "" ->
  snd (generate_password entropy len l u d s st)
  = 2 * Nat.max (Z.to_nat len) (category_count (Selection l u d s)) - 1 + st.
Proof.
  intros Hlen Hpool. unfold generate_password.
  destruct (Z.leb_spec len 0) as [? | _]; [lia |].
  destruct (Nat.eqb_spec (String.length (build_character_pool l u d s)) 0)
    as [H0 | _].
  { destruct (build_character_pool l u d s); [done | discriminate]. }
  destruct (guarantee_draws l Lowercase [] st) as (g1 & R1 & L1).
  destruct (guarantee_draws u Uppercase ([] ++ g1) (length g1 + st))
    as (g2 & R2 & L2).
  destruct (guarantee_draws d Digit (([] ++ g1) ++ g2)
              (length g2 + (length g1 + st))) as (g3 & R3 & L3).
  destruct (guarantee_draws s Symbol ((([] ++ g1) ++ g2) ++ g3)
              (length g3 + (length g2 + (length g1 + st))))
    as (g4 & R4 & L4).
  destruct (fill_rest_ok entropy len _ (((([] ++ g1) ++ g2) ++ g3) ++ g4)
              (length g4 + (length g3 + (length g2 + (length g1 + st))))
              Hpool) as (added & R5 & Hadded & _).
  destruct (shuffle_ok entropy ((((([] ++ g1) ++ g2) ++ g3) ++ g4) ++ added)
              (length added
               + (length g4 + (length g3 + (length g2 + (length g1 + st))))))
    as (shuffled & R6 & _).
  simpl category_pool in *.
  rewrite (bind_inr _ _ _ _ _ R1), (bind_inr _ _ _ _ _ R2),
    (bind_inr _ _ _ _ _ R3), (bind_inr _ _ _ _ _ R4),
    (bind_inr _ _ _ _ _ R5), (bind_inr _ _ _ _ _ R6).
  unfold ret. cbn [snd].
  assert (category_count (Selection l u d s)
          = length g1 + length g2 + length g3 + length g4) as ->.
  { unfold category_count. rewrite enabled_categories_flags, !length_app.
    rewrite L1, L2, L3, L4. by destruct l, u, d, s. }
  rewrite !length_app in *. cbn [length] in *. lia.
Qed.

End Draw_count.

(** The entropy a call consumes. A call with a positive length and a
    non-empty selection makes exactly [2 * max(len, k) - 1] draws, where
    [k] is the number of enabled categories: one per category, the fill
    draws, and one per position but one of the shuffle. On valid input that
    is [2 * len - 1]. *)
Theorem generate_password_entropy_consumed (entropy : nat -> nat) (len : Z)
    (sel : CategorySelection) (st : nat) :
  (1 <= len)%Z ->
  category_count sel <> 0 ->
  snd (generate entropy len sel st)
  = st + (2 * Nat.max (Z.to_nat len) (category_count sel) - 1)
  /\ ((Z.of_nat (category_count sel) <= len)%Z ->
      Z.of_nat (snd (generate entropy len sel st))
      = (Z.of_nat st + (2 * len - 1))%Z).
Proof.
  intros Hlen Hsel. pose proof (build_pool_nonempty sel Hsel) as Hpool.
  destruct sel as [l u d s]. unfold generate, build_pool in *. simpl in *.
  rewrite generate_password_draws by (lia || done). split; [lia |].
  intros Hk. lia.
Qed.

Lemma generate_password_entropy_consumed_witness :
  (1 <= 5)%Z /\ category_count (Selection true false true false) <> 0
  /\ snd (generate affine_entropy 5 (Selection true false true false) 0)
     = 0 + (2 * Nat.max (Z.to_nat 5)
                  (category_count (Selection true false true false)) - 1).
Proof.
  split; [lia |]. split; [by vm_compute |].
  apply (generate_password_entropy_consumed affine_entropy 5
           (Selection true false true false) 0); [lia | by vm_compute].
Defined.

(** ** The pool as an alphabet *)

(** The pool has no repeated character, so a uniform draw from it weighs
    every character of the enabled categories equally; its size is the sum
    of the sizes of the enabled categories: 26 lowercase letters, 26
    uppercase letters, 10 digits and 26 symbols. *)
Theorem build_character_pool_alphabet (sel : CategorySelection) :
  NoDup (chars (build_pool sel))
  /\ String.length (build_pool sel)
     = (if include_lower sel then 26 else 0)
       + (if include_upper sel then 26 else 0)
       + (if include_digits sel then 10 else 0)
       + (if include_symbols sel then 26 else 0)
  /\ forall c, c ∈ chars (build_pool sel) <->
       exists cat, enabled sel cat = true /\ c ∈ chars (category_pool cat).
Proof.
  split_and!.
  - destruct sel as [[] [] [] []]; apply (bool_decide_unpack _);
      by vm_compute.
  - by destruct sel as [[] [] [] []].
  - intros c. destruct sel as [l u d s]. unfold build_pool. simpl.
    rewrite build_character_pool_spec_pool. apply spec_pool_elem.
Qed.

(** * The console session *)

Section Prompt_int_facts.

Variable py : StrOps.
Variables (prompt_text : string) (minimum : Z) (maximum : option Z).

Lemma prompt_int_loop_returns (lines : list string) (out : list output)
    (value : Z) (lines' : list string) (out' : list output) :
  prompt_int_loop py prompt_text minimum maximum lines out
    = (inr value, (lines', out')) ->
  exists rejected line messages,
    lines = rejected ++ line :: lines'
    /\ Forall (int_rejected py minimum maximum) rejected
    /\ str_isdigit py (str_strip py line) = true
    /\ int_of_str py (str_strip py line) = inr value
    /\ (minimum <= value)%Z
    /\ (forall max_value, maximum = Some max_value -> (value <= max_value)%Z)
    /\ length messages = length rejected
    /\ out' = out ++ rounds (Prompt prompt_text) messages.
Proof.
  revert out. induction lines as [| line lines IH]; intros out Hrun;
    cbn [prompt_int_loop] in Hrun; [done |].
  assert (forall m,
    prompt_int_loop py prompt_text minimum maximum lines
      ((out ++ [Prompt prompt_text]) ++ [Print m]) = (inr value, (lines', out'))
    -> int_rejected py minimum maximum line ->
    exists rejected line0 messages,
      line :: lines = rejected ++ line0 :: lines'
      /\ Forall (int_rejected py minimum maximum) rejected
      /\ str_isdigit py (str_strip py line0) = true
      /\ int_of_str py (str_strip py line0) = inr value
      /\ (minimum <= value)%Z
      /\ (forall max_value, maximum = Some max_value ->
            (value <= max_value)%Z)
      /\ length messages = length rejected
      /\ out' = out ++ rounds (Prompt prompt_text) messages) as Hround.
  { intros m Hrest Hrej.
    destruct (IH _ Hrest)
      as (rejected & line0 & messages & -> & Hall & Hd & Hi & Hlo & Hhi
          & Hlen & ->).
    exists (line :: rejected), line0, (m :: messages).
    split_and!; try done.
    - by constructor.
    - simpl. by rewrite Hlen.
    - unfold rounds. simpl. by rewrite <- !app_assoc. }
  destruct (str_isdigit py (str_strip py line)) eqn:Hdigit;
    cbn [negb] in Hrun.
  2: { eapply Hround; [done | by left]. }
  destruct (int_of_str py (str_strip py line)) as [e | v] eqn:Hint; [done |].
  destruct (Z.ltb_spec v minimum) as [Hlow | Hlow].
  { destruct (format_int py minimum) as [error | text]; [done |].
    eapply Hround; [done |]. right. exists v. split_and!; try done. by left. }
  destruct maximum as [max_value |] eqn:Hmax.
  - destruct (Z.gtb_spec v max_value) as [Hhigh | Hhigh].
    { destruct (format_int py max_value) as [error | text]; [done |].
      eapply Hround; [done |]. right. exists v. split_and!; try done.
      right. exists max_value. split; [done | lia]. }
    injection Hrun as <- <- <-.
    exists [], line, []. split_and!; try done.
    intros ? [= <-]. lia.
  - injection Hrun as <- <- <-.
    exists [], line, []. split_and!; done.
Qed.


End Prompt_int_facts.

Lemma prompt_int_unfold (py : StrOps) (prompt_text : string) (minimum : Z)
    (maximum : option Z) (w w' : world) (r : cli_exn + Z) :
  prompt_int py prompt_text minimum maximum w = (r, w') ->
  prompt_int_loop py prompt_text minimum maximum (stdin w) (stdout w)
    = (r, (stdin w', stdout w'))
  /\ drawn w' = drawn w.
Proof.
  unfold prompt_int.
  destruct (prompt_int_loop _ _ _ _ _ _) as [r0 [lines out]].
  by intros [= <- <-].
Qed.

(** [prompt_int] only returns a number within the bounds it was given,
    whatever the user types and whatever the text operations do. *)
Theorem prompt_int_within_bounds (py : StrOps) (prompt_text : string)
    (minimum : Z) (maximum : option Z) (w w' : world) (value : Z) :
  prompt_int py prompt_text minimum maximum w = (inr value, w') ->
  (minimum <= value)%Z
  /\ forall max_value, maximum = Some max_value -> (value <= max_value)%Z.
Proof.
  intros [Hloop _]%prompt_int_unfold.
  apply prompt_int_loop_returns in Hloop
    as (_ & _ & _ & _ & _ & _ & _ & Hlo & Hhi & _).
  done.
Qed.

Lemma prompt_int_within_bounds_witness :
  prompt_int ascii_ops "Length: " 4 (Some 512%Z) typed_lengths
    = (inr 12%Z, after_typed_lengths)
  /\ (4 <= 12)%Z
  /\ forall max_value, Some 512%Z = Some max_value -> (12 <= max_value)%Z.
Proof.
  split; [by vm_compute |].
  apply (prompt_int_within_bounds ascii_ops "Length: " 4 (Some 512%Z)
           typed_lengths after_typed_lengths 12).
  by vm_compute.
Defined.

(** [prompt_int] returns the number on the first line it does not turn
    down. It reads the lines up to that one and no further, writes the
    prompt before each line read and one message after each line turned
    down, and draws no entropy. *)
Theorem prompt_int_first_accepted (py : StrOps) (prompt_text : string)
    (minimum : Z) (maximum : option Z) (w w' : world) (value : Z) :
  prompt_int py prompt_text minimum maximum w = (inr value, w') ->
  exists rejected line messages,
    stdin w = rejected ++ line :: stdin w'
    /\ Forall (int_rejected py minimum maximum) rejected
    /\ str_isdigit py (str_strip py line) = true
    /\ int_of_str py (str_strip py line) = inr value
    /\ length messages = length rejected
    /\ stdout w' = stdout w ++ rounds (Prompt prompt_text) messages
    /\ drawn w' = drawn w.
Proof.
  intros [Hloop Hdrawn]%prompt_int_unfold.
  apply prompt_int_loop_returns in Hloop
    as (rejected & line & messages & Hin & Hall & Hd & Hi & _ & _ & Hlen
        & Hout).
  by exists rejected, line, messages.
Qed.

Lemma prompt_int_first_accepted_witness :
  prompt_int ascii_ops "Length: " 4 (Some 512%Z) typed_lengths
    = (inr 12%Z, after_typed_lengths)
  /\ exists rejected line messages,
       stdin typed_lengths = rejected ++ line :: stdin after_typed_lengths
       /\ Forall (int_rejected ascii_ops 4 (Some 512%Z)) rejected
       /\ str_isdigit ascii_ops (str_strip ascii_ops line) = true
       /\ int_of_str ascii_ops (str_strip ascii_ops line) = inr 12%Z
       /\ length messages = length rejected
       /\ stdout after_typed_lengths
          = stdout typed_lengths ++ rounds (Prompt "Length: ") messages
       /\ drawn after_typed_lengths = drawn typed_lengths.
Proof.
  split; [by vm_compute |].
  apply (prompt_int_first_accepted ascii_ops "Length: " 4 (Some 512%Z)
           typed_lengths after_typed_lengths 12).
  by vm_compute.
Defined.





Section Prompt_yes_no_facts.

Variable py : StrOps.
Variables (prompt_text : string) (default : option bool).

Lemma prompt_yes_no_loop_outcome (lines : list string) (out : list output)
    (r : cli_exn + bool) (lines' : list string) (out' : list output) :
  prompt_yes_no_loop py prompt_text default lines out = (r, (lines', out')) ->
  exists skipped,
    Forall (yes_no_skipped py default) skipped
    /\ out' = out ++ rounds (yes_no_shown prompt_text default)
                       (replicate (length skipped) yes_no_message)
    /\ match r with
       | inr answer =>
           exists line,
             lines = skipped ++ line :: lines'
             /\ yes_no_answered py default line answer
       | inl e => e = EOFError /\ lines = skipped /\ lines' = []
       end.
Proof.
  revert out. induction lines as [| line lines IH]; intros out Hrun;
    cbn [prompt_yes_no_loop] in Hrun.
  { injection Hrun as <- <- <-. exists []. split_and!; done. }
  fold (yes_no_shown prompt_text default) in Hrun.
  assert (
    prompt_yes_no_loop py prompt_text default lines
      ((out ++ [yes_no_shown prompt_text default]) ++ [Print yes_no_message])
      = (r, (lines', out')) ->
    yes_no_skipped py default line ->
    exists skipped,
      Forall (yes_no_skipped py default) skipped
      /\ out' = out ++ rounds (yes_no_shown prompt_text default)
                         (replicate (length skipped) yes_no_message)
      /\ match r with
         | inr answer =>
             exists line0,
               line :: lines = skipped ++ line0 :: lines'
               /\ yes_no_answered py default line0 answer
         | inl e => e = EOFError /\ line :: lines = skipped /\ lines' = []
         end) as Hround.
  { intros Hrest Hskip.
    destruct (IH _ Hrest) as (skipped & Hall & -> & Hr).
    exists (line :: skipped). split_and!.
    - by constructor.
    - unfold rounds. simpl. by rewrite <- !app_assoc.
    - destruct r as [e | answer].
      + destruct Hr as (-> & -> & ->). done.
      + destruct Hr as (line0 & -> & Hans). by exists line0. }
  assert (forall answer,
    yes_no_answered py default line answer ->
    (inr answer, (lines, out ++ [yes_no_shown prompt_text default]))
      = (r, (lines', out')) ->
    exists skipped,
      Forall (yes_no_skipped py default) skipped
      /\ out' = out ++ rounds (yes_no_shown prompt_text default)
                         (replicate (length skipped) yes_no_message)
      /\ match r with
         | inr answer =>
             exists line0,
               line :: lines = skipped ++ line0 :: lines'
               /\ yes_no_answered py default line0 answer
         | inl e => e = EOFError /\ line :: lines = skipped /\ lines' = []
         end) as Hstop.
  { intros answer Hans [= <- <- <-]. exists []. split_and!; try done.
    by exists line. }
  unfold yes_no_answered, yes_no_skipped in *. cbv zeta in *.
  set (raw := str_lower py (str_strip py line)) in *.
  destruct default as [answer |].
  - destruct (String.eqb_spec raw "") as [He | He].
    { apply (Hstop answer); [by left | done]. }
    destruct (String.eqb_spec raw "y") as [Hy | Hy].
    { apply (Hstop true); [right; left; by auto | done]. }
    destruct (String.eqb_spec raw "yes") as [Hyes | Hyes].
    { apply (Hstop true); [right; left; by auto | done]. }
    destruct (String.eqb_spec raw "n") as [Hn | Hn].
    { apply (Hstop false); [right; right; by auto | done]. }
    destruct (String.eqb_spec raw "no") as [Hno | Hno].
    { apply (Hstop false); [right; right; by auto | done]. }
    apply Hround; [done |]. split_and!; done.
  - destruct (String.eqb_spec raw "y") as [Hy | Hy].
    { apply (Hstop true); [right; left; by auto | done]. }
    destruct (String.eqb_spec raw "yes") as [Hyes | Hyes].
    { apply (Hstop true); [right; left; by auto | done]. }
    destruct (String.eqb_spec raw "n") as [Hn | Hn].
    { apply (Hstop false); [right; right; by auto | done]. }
    destruct (String.eqb_spec raw "no") as [Hno | Hno].
    { apply (Hstop false); [right; right; by auto | done]. }
    apply Hround; [done |]. split_and!; done.
Qed.

End Prompt_yes_no_facts.

Lemma prompt_yes_no_unfold (py : StrOps) (prompt_text : string)
    (default : option bool) (w w' : world) (r : cli_exn + bool) :
  prompt_yes_no py prompt_text default w = (r, w') ->
  prompt_yes_no_loop py prompt_text default (stdin w) (stdout w)
    = (r, (stdin w', stdout w'))
  /\ drawn w' = drawn w.
Proof.
  unfold prompt_yes_no.
  destruct (prompt_yes_no_loop _ _ _ _ _) as [r0 [lines out]].
  by intros [= <- <-].
Qed.



(** ** The session [run_cli] *)

Section Run_cli_facts.

Variable py : StrOps.
Variable entropy : nat -> nat.



Lemma cli_selection_nonempty (lower upper digit symbol : bool) :
  category_count (cli_selection lower upper digit symbol) <> 0.
Proof. by destruct lower, upper, digit, symbol. Qed.

Lemma cli_selection_covers (lower upper digit symbol : bool) (len : Z) :
  (4 <= len)%Z ->
  (Z.of_nat (category_count (cli_selection lower upper digit symbol))
   <= len)%Z.
Proof.
  intros Hlen.
  assert (category_count (cli_selection lower upper digit symbol) <= 4)
    by (destruct lower, upper, digit, symbol; vm_compute; lia).
  lia.
Qed.

Lemma prompt_int_returns_full (prompt_text : string) (minimum : Z)
    (maximum : option Z) (w w' : world) (value : Z) :
  prompt_int py prompt_text minimum maximum w = (inr value, w') ->
  exists rejected line messages,
    stdin w = rejected ++ line :: stdin w'
    /\ Forall (int_rejected py minimum maximum) rejected
    /\ str_isdigit py (str_strip py line) = true
    /\ int_of_str py (str_strip py line) = inr value
    /\ (minimum <= value)%Z
    /\ (forall max_value, maximum = Some max_value -> (value <= max_value)%Z)
    /\ length messages = length rejected
    /\ stdout w' = stdout w ++ rounds (Prompt prompt_text) messages
    /\ drawn w' = drawn w.
Proof.
  intros [Hloop Hdrawn]%prompt_int_unfold.
  apply prompt_int_loop_returns in Hloop
    as (rejected & line & messages & Hin & Hall & Hd & Hi & Hlo & Hhi & Hlen
        & Hout).
  by exists rejected, line, messages.
Qed.

Lemma prompt_yes_no_returns_full (prompt_text : string)
    (dflt : option bool) (w w' : world) (answer : bool) :
  prompt_yes_no py prompt_text dflt w = (inr answer, w') ->
  exists skipped line,
    stdin w = skipped ++ line :: stdin w'
    /\ Forall (yes_no_skipped py dflt) skipped
    /\ yes_no_answered py dflt line answer
    /\ stdout w' = stdout w ++ rounds (yes_no_shown prompt_text dflt)
                                 (replicate (length skipped) yes_no_message)
    /\ drawn w' = drawn w.
Proof.
  intros [Hloop Hdrawn]%prompt_yes_no_unfold.
  apply prompt_yes_no_loop_outcome in Hloop
    as (skipped & Hall & Hout & line & Hin & Hans).
  by exists skipped, line.
Qed.

(** A session that runs to its end: what was read, what was asked of the
    generator and what was written. *)
Lemma run_cli_returns (w w' : world) :
  run_cli py entropy w = (inr tt, w') ->
  exists rejected length_line messages len s1 a1 s2 a2 s3 a3 s4 a4
         lower upper digit symbol password,
    stdin w
    = rejected ++ length_line
        :: s1 ++ a1 :: s2 ++ a2 :: s3 ++ a3 :: s4 ++ a4 :: stdin w'
    /\ Forall (int_rejected py 4 (Some 512%Z)) rejected
    /\ length messages = length rejected
    /\ str_isdigit py (str_strip py length_line) = true
    /\ int_of_str py (str_strip py length_line) = inr len
    /\ (4 <= len <= 512)%Z
    /\ (Forall (yes_no_skipped py (Some true)) s1
        /\ yes_no_answered py (Some true) a1 lower)
    /\ (Forall (yes_no_skipped py (Some true)) s2
        /\ yes_no_answered py (Some true) a2 upper)
    /\ (Forall (yes_no_skipped py (Some true)) s3
        /\ yes_no_answered py (Some true) a3 digit)
    /\ (Forall (yes_no_skipped py (Some true)) s4
        /\ yes_no_answered py (Some true) a4 symbol)
    /\ generate entropy len (cli_selection lower upper digit symbol) (drawn w)
       = (inr password, drawn w')
    /\ stdout w'
       = stdout w
         ++ cli_screen messages (length s1) (length s2) (length s3)
              (length s4) lower upper digit symbol password.
Proof.
  unfold run_cli. intros Hrun.
  unfold io_bind at 1 in Hrun. cbn [print] in Hrun.
  unfold io_bind at 1 in Hrun. cbn [print] in Hrun.
  unfold io_bind at 1 in Hrun.
  destruct (prompt_int _ _ _ _ _) as [[e | len] w1] eqn:H1; [done |].
  apply prompt_int_returns_full in H1
    as (rejected & length_line & messages & Hi1 & Hrej & Hd & Hi & Hlo & Hhi
        & Hml & Ho1 & Hd1).
  specialize (Hhi 512%Z eq_refl). cbn [stdin stdout drawn] in Hi1, Ho1, Hd1.
  unfold io_bind at 1 in Hrun.
  destruct (prompt_yes_no _ _ _ w1) as [[e | lower] w2] eqn:H2; [done |].
  apply prompt_yes_no_returns_full in H2
    as (s1 & a1 & Hi2 & Hs1 & Ha1 & Ho2 & Hd2).
  unfold io_bind at 1 in Hrun.
  destruct (prompt_yes_no _ _ _ w2) as [[e | upper] w3] eqn:H3; [done |].
  apply prompt_yes_no_returns_full in H3
    as (s2 & a2 & Hi3 & Hs2 & Ha2 & Ho3 & Hd3).
  unfold io_bind at 1 in Hrun.
  destruct (prompt_yes_no _ _ _ w3) as [[e | digit] w4] eqn:H4; [done |].
  apply prompt_yes_no_returns_full in H4
    as (s3 & a3 & Hi4 & Hs3 & Ha3 & Ho4 & Hd4).
  unfold io_bind at 1 in Hrun.
  destruct (prompt_yes_no _ _ _ w4) as [[e | symbol] w5] eqn:H5; [done |].
  apply prompt_yes_no_returns_full in H5
    as (s4 & a4 & Hi5 & Hs4 & Ha4 & Ho5 & Hd5).
  pose proof (generate_run entropy len
                (cli_selection lower upper digit symbol) (drawn w5)
                ltac:(lia) (cli_selection_nonempty _ _ _ _))
    as (_ & _ & shuffled & st' & Hgen & _).
  exists rejected, length_line, messages, len, s1, a1, s2, a2, s3, a3, s4, a4,
    lower, upper, digit, symbol,
    (string_of_list_ascii (take (Z.to_nat len) shuffled)).
  assert (drawn w5 = drawn w) as Hdrawn by congruence.
  assert (stdin w
          = rejected ++ length_line
              :: s1 ++ a1 :: s2 ++ a2 :: s3 ++ a3 :: s4 ++ a4 :: stdin w5)
    as Hstdin by (by rewrite Hi1, Hi2, Hi3, Hi4, Hi5).
  assert (stdout w5
          = stdout w
            ++ [Print "Password Generator (secure)";
                Print "---------------------------"]
            ++ rounds (Prompt "Enter desired password length (e.g., 12-128): ")
                 messages
            ++ rounds (yes_no_shown "Include lowercase letters?" (Some true))
                 (replicate (length s1) yes_no_message)
            ++ rounds (yes_no_shown "Include uppercase letters?" (Some true))
                 (replicate (length s2) yes_no_message)
            ++ rounds (yes_no_shown "Include digits?" (Some true))
                 (replicate (length s3) yes_no_message)
            ++ rounds (yes_no_shown "Include symbols?" (Some true))
                 (replicate (length s4) yes_no_message)) as Hstdout.
  { rewrite Ho5, Ho4, Ho3, Ho2, Ho1. by rewrite <- !app_assoc. }
  clear Hi1 Hi2 Hi3 Hi4 Hi5 Ho1 Ho2 Ho3 Ho4 Ho5 Hd1 Hd2 Hd3 Hd4 Hd5.
  rewrite Hdrawn in Hgen.
  assert (stdin w' = stdin w5 /\ drawn w' = st'
          /\ stdout w'
             = stdout w5
               ++ (if negb (any [lower; upper; digit; symbol])
                   then [Print "No categories selected. Defaulting to lowercase letters."]
                   else [])
               ++ [Print generated_password_header;
                   Print (string_of_list_ascii
                            (take (Z.to_nat len) shuffled))])
    as (Hin' & Hdr' & Hout').
  { pose proof Hgen as Hgen'.
    unfold generate, cli_selection in Hgen'.
    cbn [include_lower include_upper include_digits include_symbols]
      in Hgen'.
    unfold io_bind at 1 in Hrun.
    destruct (negb (any [lower; upper; digit; symbol])) eqn:Hany;
      cbv [io_bind print io_ret try_generate io_raise] in Hrun;
      cbn [stdin stdout drawn] in Hrun; rewrite Hdrawn, Hgen' in Hrun;
      cbv beta iota zeta in Hrun; cbn [stdin stdout drawn] in Hrun;
      injection Hrun as <-; cbn [stdin stdout drawn];
      split_and!; try done; by rewrite <- !app_assoc. }
  rewrite Hin', Hdr', Hout', Hstdout. unfold cli_screen.
  split_and!; try done; try lia.
  by rewrite <- !app_assoc.
Qed.

End Run_cli_facts.

Lemma io_bind_inr {A B} (m : IO A) (k : A -> IO B) (w w' : world) (a : A) :
  m w = (inr a, w') -> io_bind m k w = k a w'.
Proof. unfold io_bind. by intros ->. Qed.

Section Scripted_session.

Variable py : StrOps.
Variable entropy : nat -> nat.

Lemma prompt_int_accepts (prompt_text : string) (minimum : Z)
    (maximum : option Z) (line : string) (lines : list string)
    (out : list output) (st : nat) (value : Z) :
  str_isdigit py (str_strip py line) = true ->
  int_of_str py (str_strip py line) = inr value ->
  (minimum <= value)%Z ->
  (forall max_value, maximum = Some max_value -> (value <= max_value)%Z) ->
  prompt_int py prompt_text minimum maximum (World (line :: lines) out st)
  = (inr value, World lines (out ++ [Prompt prompt_text]) st).
Proof.
  intros Hd Hi Hlo Hhi. unfold prompt_int.
  cbn [stdin stdout drawn prompt_int_loop]. rewrite Hd, Hi. cbn [negb].
  destruct (Z.ltb_spec value minimum); [lia |].
  destruct maximum as [max_value |]; [| done].
  specialize (Hhi max_value eq_refl).
  by destruct (Z.gtb_spec value max_value); [lia |].
Qed.

Lemma prompt_yes_no_accepts (prompt_text : string) (dflt : option bool)
    (line : string) (lines : list string) (out : list output) (st : nat)
    (answer : bool) :
  yes_no_answered py dflt line answer ->
  prompt_yes_no py prompt_text dflt (World (line :: lines) out st)
  = (inr answer, World lines (out ++ [yes_no_shown prompt_text dflt]) st).
Proof.
  unfold yes_no_answered, prompt_yes_no. cbv zeta.
  cbn [stdin stdout drawn prompt_yes_no_loop].
  fold (yes_no_shown prompt_text dflt).
  generalize (str_lower py (str_strip py line)). intros raw.
  intros [[-> ->] | [[[-> | ->] ->] | [[-> | ->] ->]]]; try done;
    by destruct dflt as [[] |].
Qed.

(** A session in which every line is accepted at once: the length, then
    the four answers. *)
Lemma run_cli_scripted (length_line a1 a2 a3 a4 : string)
    (rest : list string) (out : list output) (st st' : nat) (len : Z)
    (lower upper digit symbol : bool) (password : string) :
  str_isdigit py (str_strip py length_line) = true ->
  int_of_str py (str_strip py length_line) = inr len ->
  (4 <= len <= 512)%Z ->
  yes_no_answered py (Some true) a1 lower ->
  yes_no_answered py (Some true) a2 upper ->
  yes_no_answered py (Some true) a3 digit ->
  yes_no_answered py (Some true) a4 symbol ->
  generate entropy len (cli_selection lower upper digit symbol) st
    = (inr password, st') ->
  run_cli py entropy
    (World (length_line :: a1 :: a2 :: a3 :: a4 :: rest) out st)
  = (inr tt,
     World rest
       (out
        ++ [Print "Password Generator (secure)";
            Print "---------------------------";
            Prompt "Enter desired password length (e.g., 12-128): ";
            Prompt "Include lowercase letters? [Y/n]: ";
            Prompt "Include uppercase letters? [Y/n]: ";
            Prompt "Include digits? [Y/n]: ";
            Prompt "Include symbols? [Y/n]: "]
        ++ (if negb (any [lower; upper; digit; symbol])
            then [Print "No categories selected. Defaulting to lowercase letters."]
            else [])
        ++ [Print generated_password_header; Print password])
       st').
Proof.
  intros Hd Hi Hlen H1 H2 H3 H4 Hgen. unfold run_cli.
  unfold io_bind at 1. cbn [print stdin stdout drawn].
  unfold io_bind at 1. cbn [print stdin stdout drawn].
  erewrite io_bind_inr;
    [| apply prompt_int_accepts; [done | done | lia | intros ? [= <-]; lia]].
  erewrite io_bind_inr; [| by apply prompt_yes_no_accepts].
  erewrite io_bind_inr; [| by apply prompt_yes_no_accepts].
  erewrite io_bind_inr; [| by apply prompt_yes_no_accepts].
  erewrite io_bind_inr; [| by apply prompt_yes_no_accepts].
  unfold generate, cli_selection in Hgen.
  cbn [include_lower include_upper include_digits include_symbols] in Hgen.
  destruct (negb (any [lower; upper; digit; symbol])) eqn:Hany;
    cbv [io_bind print io_ret try_generate io_raise];
    cbn [stdin stdout drawn]; rewrite Hgen; cbv beta iota zeta;
    cbn [stdin stdout drawn]; do 2 f_equal;
    by rewrite <- !app_assoc.
Qed.

End Scripted_session.

(** Everything a call on valid input gives, in one place. *)
Lemma generate_valid (entropy : nat -> nat) (len : Z)
    (sel : CategorySelection) (st : nat) :
  (1 <= len)%Z ->
  category_count sel <> 0 ->
  (Z.of_nat (category_count sel) <= len)%Z ->
  exists password,
    generate entropy len sel st
      = (inr password, st + (2 * Z.to_nat len - 1))
    /\ Z.of_nat (String.length password) = len
    /\ (forall cat, enabled sel cat = true ->
          exists c, c ∈ chars password /\ c ∈ chars (category_pool cat))
    /\ (forall c, c ∈ chars password ->
          (exists cat, enabled sel cat = true
                       /\ c ∈ chars (category_pool cat))
          /\ (forall cat, enabled sel cat = false ->
                c ∉ chars (category_pool cat))).
Proof.
  intros Hlen Hsel Hk.
  destruct (generate_run_valid entropy len sel st Hlen Hsel Hk)
    as (guaranteed & added & shuffled & st' & Hrun & Hperm & Hg & Hsl & Hall).
  exists (string_of_list_ascii shuffled).
  assert (st' = st + (2 * Z.to_nat len - 1)) as ->.
  { pose proof (build_pool_nonempty sel Hsel) as Hpool.
    pose proof (f_equal snd Hrun) as Hsnd. cbn [snd] in Hsnd.
    destruct sel as [l u d s]. unfold generate, build_pool in *.
    cbn [include_lower include_upper include_digits include_symbols] in *.
    rewrite generate_password_draws in Hsnd by (lia || done). lia. }
  unfold chars at 1 3. rewrite list_ascii_of_string_of_list_ascii.
  split_and!; try done.
  - rewrite string_length_of_list. lia.
  - intros cat Hcat%enabled_categories_elem.
    destruct (one_per_category_elem _ _ Hg) as [Hcover _].
    destruct (Hcover cat Hcat) as (c & Hc & Hin).
    exists c. split; [| done]. rewrite Hperm. apply elem_of_app. by left.
  - intros c Hc. apply (buffer_closure sel guaranteed added); [done .. |].
    by rewrite <- Hperm.
Qed.

(** A session of [run_cli] that runs to its end. After the lines it turned
    down, it read a length line, whose number [len] is between 4 and 512,
    and after the lines each yes/no prompt asked again about, four
    answers. The generator's [ValueError] handler never ran: what it wrote
    ends with the header and the password the generator returned for
    [len] and for the categories answered with yes (lowercase alone when
    all were declined), a password of exactly [len] characters, with a
    character of each of those categories and of no other. *)
Theorem run_cli_prints_valid_password (py : StrOps) (entropy : nat -> nat)
    (w w' : world) :
  run_cli py entropy w = (inr tt, w') ->
  exists rejected length_line messages len s1 a1 s2 a2 s3 a3 s4 a4
         lower upper digit symbol password,
    stdin w
    = rejected ++ length_line
        :: s1 ++ a1 :: s2 ++ a2 :: s3 ++ a3 :: s4 ++ a4 :: stdin w'
    /\ Forall (int_rejected py 4 (Some 512%Z)) rejected
    /\ length messages = length rejected
    /\ str_isdigit py (str_strip py length_line) = true
    /\ int_of_str py (str_strip py length_line) = inr len
    /\ (4 <= len <= 512)%Z
    /\ (Forall (yes_no_skipped py (Some true)) s1
        /\ yes_no_answered py (Some true) a1 lower)
    /\ (Forall (yes_no_skipped py (Some true)) s2
        /\ yes_no_answered py (Some true) a2 upper)
    /\ (Forall (yes_no_skipped py (Some true)) s3
        /\ yes_no_answered py (Some true) a3 digit)
    /\ (Forall (yes_no_skipped py (Some true)) s4
        /\ yes_no_answered py (Some true) a4 symbol)
    /\ generate entropy len (cli_selection lower upper digit symbol) (drawn w)
       = (inr password, drawn w')
    /\ stdout w'
       = stdout w
         ++ cli_screen messages (length s1) (length s2) (length s3)
              (length s4) lower upper digit symbol password
    /\ Z.of_nat (String.length password) = len
    /\ (forall cat,
          enabled (cli_selection lower upper digit symbol) cat = true ->
          exists c, c ∈ chars password /\ c ∈ chars (category_pool cat))
    /\ (forall c cat,
          c ∈ chars password ->
          enabled (cli_selection lower upper digit symbol) cat = false ->
          c ∉ chars (category_pool cat))
    /\ drawn w' = drawn w + (2 * Z.to_nat len - 1).
Proof.
  intros Hrun.
  apply run_cli_returns in Hrun
    as (rejected & length_line & messages & len & s1 & a1 & s2 & a2 & s3 & a3
        & s4 & a4 & lower & upper & digit & symbol & password & Hstdin & Hrej
        & Hml & Hd & Hi & Hlen & H1 & H2 & H3 & H4 & Hgen & Hout).
  destruct (generate_valid entropy len
              (cli_selection lower upper digit symbol) (drawn w))
    as (password' & Hgen' & Hl & Hcover & Hclosed);
    [lia | apply cli_selection_nonempty | apply cli_selection_covers; lia |].
  rewrite Hgen in Hgen'. injection Hgen' as <- Hdrawn.
  exists rejected, length_line, messages, len, s1, a1, s2, a2, s3, a3, s4, a4,
    lower, upper, digit, symbol, password.
  split_and!; try done; try lia.
  - by destruct H1.
  - by destruct H1.
  - by destruct H2.
  - by destruct H2.
  - by destruct H3.
  - by destruct H3.
  - by destruct H4.
  - by destruct H4.
  - intros c cat Hc. by apply Hclosed.
Qed.

Lemma run_cli_prints_valid_password_witness :
  run_cli ascii_ops affine_entropy typed_session = (inr tt, after_typed_session)
  /\ exists rejected length_line messages len s1 a1 s2 a2 s3 a3 s4 a4
            lower upper digit symbol password,
       stdin typed_session
       = rejected ++ length_line
           :: s1 ++ a1 :: s2 ++ a2 :: s3 ++ a3 :: s4 ++ a4
           :: stdin after_typed_session
       /\ Forall (int_rejected ascii_ops 4 (Some 512%Z)) rejected
       /\ length messages = length rejected
       /\ str_isdigit ascii_ops (str_strip ascii_ops length_line) = true
       /\ int_of_str ascii_ops (str_strip ascii_ops length_line) = inr len
       /\ (4 <= len <= 512)%Z
       /\ (Forall (yes_no_skipped ascii_ops (Some true)) s1
           /\ yes_no_answered ascii_ops (Some true) a1 lower)
       /\ (Forall (yes_no_skipped ascii_ops (Some true)) s2
           /\ yes_no_answered ascii_ops (Some true) a2 upper)
       /\ (Forall (yes_no_skipped ascii_ops (Some true)) s3
           /\ yes_no_answered ascii_ops (Some true) a3 digit)
       /\ (Forall (yes_no_skipped ascii_ops (Some true)) s4
           /\ yes_no_answered ascii_ops (Some true) a4 symbol)
       /\ generate affine_entropy len (cli_selection lower upper digit symbol)
            (drawn typed_session)
          = (inr password, drawn after_typed_session)
       /\ stdout after_typed_session
          = stdout typed_session
            ++ cli_screen messages (length s1) (length s2) (length s3)
                 (length s4) lower upper digit symbol password
       /\ Z.of_nat (String.length password) = len
       /\ (forall cat,
             enabled (cli_selection lower upper digit symbol) cat = true ->
             exists c, c ∈ chars password /\ c ∈ chars (category_pool cat))
       /\ (forall c cat,
             c ∈ chars password ->
             enabled (cli_selection lower upper digit symbol) cat = false ->
             c ∉ chars (category_pool cat))
       /\ drawn after_typed_session
          = drawn typed_session + (2 * Z.to_nat len - 1).
Proof.
  split; [by vm_compute |].
  apply (run_cli_prints_valid_password ascii_ops affine_entropy
           typed_session after_typed_session).
  by vm_compute.
Defined.


(** Declining every category. When the length typed is accepted at once
    and each of the four answers is [n] or [no], the session prints the
    notice that it falls back to lowercase letters and then a password of
    exactly the length typed, made of lowercase letters only. *)
Theorem run_cli_all_declined (py : StrOps) (entropy : nat -> nat)
    (length_line a1 a2 a3 a4 : string) (rest : list string)
    (out : list output) (st : nat) (len : Z) :
  str_isdigit py (str_strip py length_line) = true ->
  int_of_str py (str_strip py length_line) = inr len ->
  (4 <= len <= 512)%Z ->
  Forall (fun a => normalised py a = "n" \/ normalised py a = "no")
    [a1; a2; a3; a4] ->
  exists password,
    run_cli py entropy
      (World (length_line :: a1 :: a2 :: a3 :: a4 :: rest) out st)
    = (inr tt,
       World rest
         (out
          ++ [Print "Password Generator (secure)";
              Print "---------------------------";
              Prompt "Enter desired password length (e.g., 12-128): ";
              Prompt "Include lowercase letters? [Y/n]: ";
              Prompt "Include uppercase letters? [Y/n]: ";
              Prompt "Include digits? [Y/n]: ";
              Prompt "Include symbols? [Y/n]: ";
              Print "No categories selected. Defaulting to lowercase letters.";
              Print generated_password_header;
              Print password])
         (st + (2 * Z.to_nat len - 1)))
    /\ Z.of_nat (String.length password) = len
    /\ forall c, c ∈ chars password -> c ∈ chars ascii_lowercase.
Proof.
  intros Hd Hi Hlen Hno.
  assert (forall a, a ∈ [a1; a2; a3; a4] ->
            yes_no_answered py (Some true) a false) as Hans.
  { intros a Ha. rewrite Forall_forall in Hno.
    right. right. split; [| done]. by apply Hno. }
  destruct (generate_valid entropy len (cli_selection false false false false)
              st) as (password & Hgen & Hl & _ & Hclosed);
    [lia | by vm_compute | apply cli_selection_covers; lia |].
  exists password. split_and!; [| done |].
  - rewrite (run_cli_scripted py entropy length_line a1 a2 a3 a4 rest out st
               (st + (2 * Z.to_nat len - 1)) len false false false false
               password);
      try done; apply Hans; repeat constructor.
  - intros c Hc. destruct (Hclosed c Hc) as [(cat & Hcat & Hin) _].
    by destruct cat.
Qed.

Lemma run_cli_all_declined_witness :
  str_isdigit ascii_ops (str_strip ascii_ops " 6") = true
  /\ int_of_str ascii_ops (str_strip ascii_ops " 6") = inr 6%Z
  /\ (4 <= 6 <= 512)%Z
  /\ Forall (fun a => normalised ascii_ops a = "n"
                      \/ normalised ascii_ops a = "no")
       ["n"; "No"; " NO "; "N"]
  /\ exists password,
       run_cli ascii_ops affine_entropy
         (World [" 6"; "n"; "No"; " NO "; "N"; "left"] [] 0)
       = (inr tt,
          World ["left"]
            ([]
             ++ [Print "Password Generator (secure)";
                 Print "---------------------------";
                 Prompt "Enter desired password length (e.g., 12-128): ";
                 Prompt "Include lowercase letters? [Y/n]: ";
                 Prompt "Include uppercase letters? [Y/n]: ";
                 Prompt "Include digits? [Y/n]: ";
                 Prompt "Include symbols? [Y/n]: ";
                 Print "No categories selected. Defaulting to lowercase letters.";
                 Print generated_password_header;
                 Print password])
            (0 + (2 * Z.to_nat 6 - 1)))
       /\ Z.of_nat (String.length password) = 6%Z
       /\ forall c, c ∈ chars password -> c ∈ chars ascii_lowercase.
Proof.
  split; [by vm_compute |]. split; [by vm_compute |]. split; [lia |].
  split; [repeat constructor; by vm_compute |].
  apply (run_cli_all_declined ascii_ops affine_entropy
           " 6" "n" "No" " NO " "N" ["left"] [] 0 6);
    [by vm_compute | by vm_compute | lia |].
  repeat constructor; by vm_compute.
Defined.

(** Accepting every default. When the length typed is accepted at once and
    each of the four answers is empty, the session prints, with no notice,
    a password of exactly the length typed that has a character of each of
    the four categories. *)
Theorem run_cli_all_defaults (py : StrOps) (entropy : nat -> nat)
    (length_line a1 a2 a3 a4 : string) (rest : list string)
    (out : list output) (st : nat) (len : Z) :
  str_isdigit py (str_strip py length_line) = true ->
  int_of_str py (str_strip py length_line) = inr len ->
  (4 <= len <= 512)%Z ->
  Forall (fun a => normalised py a = "") [a1; a2; a3; a4] ->
  exists password,
    run_cli py entropy
      (World (length_line :: a1 :: a2 :: a3 :: a4 :: rest) out st)
    = (inr tt,
       World rest
         (out
          ++ [Print "Password Generator (secure)";
              Print "---------------------------";
              Prompt "Enter desired password length (e.g., 12-128): ";
              Prompt "Include lowercase letters? [Y/n]: ";
              Prompt "Include uppercase letters? [Y/n]: ";
              Prompt "Include digits? [Y/n]: ";
              Prompt "Include symbols? [Y/n]: ";
              Print generated_password_header;
              Print password])
         (st + (2 * Z.to_nat len - 1)))
    /\ Z.of_nat (String.length password) = len
    /\ forall cat,
         exists c, c ∈ chars password /\ c ∈ chars (category_pool cat).
Proof.
  intros Hd Hi Hlen Hempty.
  assert (forall a, a ∈ [a1; a2; a3; a4] ->
            yes_no_answered py (Some true) a true) as Hans.
  { intros a Ha. rewrite Forall_forall in Hempty.
    left. split; [| done]. by apply Hempty. }
  destruct (generate_valid entropy len (cli_selection true true true true)
              st) as (password & Hgen & Hl & Hcover & _);
    [lia | by vm_compute | apply cli_selection_covers; lia |].
  exists password. split_and!; [| done |].
  - rewrite (run_cli_scripted py entropy length_line a1 a2 a3 a4 rest out st
               (st + (2 * Z.to_nat len - 1)) len true true true true
               password);
      try done; apply Hans; repeat constructor.
  - intros cat. apply Hcover. by destruct cat.
Qed.

Lemma run_cli_all_defaults_witness :
  str_isdigit ascii_ops (str_strip ascii_ops "10") = true
  /\ int_of_str ascii_ops (str_strip ascii_ops "10") = inr 10%Z
  /\ (4 <= 10 <= 512)%Z
  /\ Forall (fun a => normalised ascii_ops a = "") [""; " "; ""; ""]
  /\ exists password,
       run_cli ascii_ops affine_entropy
         (World ["10"; ""; " "; ""; ""] [] 0)
       = (inr tt,
          World []
            ([]
             ++ [Print "Password Generator (secure)";
                 Print "---------------------------";
                 Prompt "Enter desired password length (e.g., 12-128): ";
                 Prompt "Include lowercase letters? [Y/n]: ";
                 Prompt "Include uppercase letters? [Y/n]: ";
                 Prompt "Include digits? [Y/n]: ";
                 Prompt "Include symbols? [Y/n]: ";
                 Print generated_password_header;
                 Print password])
            (0 + (2 * Z.to_nat 10 - 1)))
       /\ Z.of_nat (String.length password) = 10%Z
       /\ forall cat,
            exists c, c ∈ chars password /\ c ∈ chars (category_pool cat).
Proof.
  split; [by vm_compute |]. split; [by vm_compute |]. split; [lia |].
  split; [repeat constructor; by vm_compute |].
  apply (run_cli_all_defaults ascii_ops affine_entropy
           "10" "" " " "" "" [] [] 0 10);
    [by vm_compute | by vm_compute | lia |].
  repeat constructor; by vm_compute.
Defined.

(** * The window *)

Section Window_facts.

Variable py : StrOps.
Variable entropy : nat -> nat.

Lemma ticked_count (w : window) :
  any [include_lower_var w; include_upper_var w; include_digits_var w;
       include_symbols_var w] = true ->
  category_count (ticked w) <> 0 /\ category_count (ticked w) <= 4.
Proof.
  unfold ticked.
  destruct (include_lower_var w), (include_upper_var w),
    (include_digits_var w), (include_symbols_var w); try done;
    intros _; vm_compute; split; (done || lia).
Qed.

Lemma on_generate_success (w : window) (len : Z) :
  str_isdigit py (str_strip py (length_var w)) = true ->
  int_of_str py (str_strip py (length_var w)) = inr len ->
  (4 <= len <= 512)%Z ->
  any [include_lower_var w; include_upper_var w; include_digits_var w;
       include_symbols_var w] = true ->
  exists password,
    on_generate py entropy w
      = (inr tt, generated password (win_drawn w + (2 * Z.to_nat len - 1)) w)
    /\ Z.of_nat (String.length password) = len
    /\ (forall cat, enabled (ticked w) cat = true ->
          exists c, c ∈ chars password /\ c ∈ chars (category_pool cat))
    /\ (forall c, c ∈ chars password ->
          (exists cat, enabled (ticked w) cat = true
                       /\ c ∈ chars (category_pool cat))
          /\ (forall cat, enabled (ticked w) cat = false ->
                c ∉ chars (category_pool cat))).
Proof.
  intros Hd Hi Hlen Hany. destruct (ticked_count w Hany) as [Hsome Hfour].
  destruct (generate_valid entropy len (ticked w) (win_drawn w))
    as (password & Hgen & Hrest); [lia | done | lia |].
  exists password. split; [| done].
  unfold on_generate. rewrite Hd, Hi. cbn [negb].
  destruct (Z.ltb_spec len 4); [lia |].
  destruct (Z.gtb_spec len 512); [lia |]. cbn [orb].
  rewrite Hany. cbn [negb].
  unfold generate, ticked in Hgen.
  cbn [include_lower include_upper include_digits include_symbols] in Hgen.
  by rewrite Hgen.
Qed.

End Window_facts.

(** The Generate button on a valid form. When the length field holds a
    digit string whose value is between 4 and 512 and at least one box is
    ticked, the callback raises nothing and shows no dialog: it stores a
    password of exactly that length, with a character of every ticked
    category and of no other, and puts the focus and the selection on
    it. *)
Theorem on_generate_sets_password (py : StrOps) (entropy : nat -> nat)
    (w : window) (len : Z) :
  str_isdigit py (str_strip py (length_var w)) = true ->
  int_of_str py (str_strip py (length_var w)) = inr len ->
  (4 <= len <= 512)%Z ->
  any [include_lower_var w; include_upper_var w; include_digits_var w;
       include_symbols_var w] = true ->
  exists password,
    on_generate py entropy w
      = (inr tt, generated password (win_drawn w + (2 * Z.to_nat len - 1)) w)
    /\ password_var (snd (on_generate py entropy w)) = password
    /\ events (snd (on_generate py entropy w))
       = events w ++ [FocusPassword; SelectPassword]
    /\ Z.of_nat (String.length password) = len
    /\ (forall cat, enabled (ticked w) cat = true ->
          exists c, c ∈ chars password /\ c ∈ chars (category_pool cat))
    /\ (forall c cat, c ∈ chars password -> enabled (ticked w) cat = false ->
          c ∉ chars (category_pool cat)).
Proof.
  intros Hd Hi Hlen Hany.
  destruct (on_generate_success py entropy w len Hd Hi Hlen Hany)
    as (password & Hrun & Hl & Hcover & Hclosed).
  exists password. rewrite Hrun. cbn [snd].
  split_and!; [reflexivity | | | exact Hl | exact Hcover |].
  - destruct w. reflexivity.
  - destruct w. unfold generated. cbn [show set_password set_drawn events].
    by rewrite <- app_assoc.
  - intros c cat Hc. by apply Hclosed.
Qed.

Lemma on_generate_sets_password_witness :
  str_isdigit ascii_ops (str_strip ascii_ops (length_var (initial_window "" 0)))
    = true
  /\ int_of_str ascii_ops
       (str_strip ascii_ops (length_var (initial_window "" 0))) = inr 16%Z
  /\ (4 <= 16 <= 512)%Z
  /\ any [include_lower_var (initial_window "" 0);
          include_upper_var (initial_window "" 0);
          include_digits_var (initial_window "" 0);
          include_symbols_var (initial_window "" 0)] = true
  /\ exists password,
       on_generate ascii_ops affine_entropy (initial_window "" 0)
       = (inr tt,
          generated password (win_drawn (initial_window "" 0)
                              + (2 * Z.to_nat 16 - 1)) (initial_window "" 0))
       /\ password_var
            (snd (on_generate ascii_ops affine_entropy (initial_window "" 0)))
          = password
       /\ events
            (snd (on_generate ascii_ops affine_entropy (initial_window "" 0)))
          = events (initial_window "" 0) ++ [FocusPassword; SelectPassword]
       /\ Z.of_nat (String.length password) = 16%Z
       /\ (forall cat, enabled (ticked (initial_window "" 0)) cat = true ->
             exists c, c ∈ chars password /\ c ∈ chars (category_pool cat))
       /\ (forall c cat, c ∈ chars password ->
             enabled (ticked (initial_window "" 0)) cat = false ->
             c ∉ chars (category_pool cat)).
Proof.
  split; [by vm_compute |]. split; [by vm_compute |]. split; [lia |].
  split; [by vm_compute |].
  apply (on_generate_sets_password ascii_ops affine_entropy
           (initial_window "" 0) 16); [by vm_compute .. | lia | by vm_compute].
Defined.

(** Every run of the Generate button. Either one of the three validation
    dialogs is shown and nothing else changes, or [int] raised on the
    length field and nothing changes at all, or a password of the length
    typed, between 4 and 512, is stored. The dialog titled [Error] of the
    [ValueError] handler is never shown and no [IndexError] leaves. *)
Theorem on_generate_outcome (py : StrOps) (entropy : nat -> nat)
    (w w' : window) (r : exn + unit) :
  on_generate py entropy w = (r, w') ->
  (exists title message,
     r = inr tt /\ w' = show (ShowError title message) w
     /\ title ∈ ["Invalid input"; "Invalid length"; "No character sets"])
  \/ (exists e,
        r = inl e /\ w' = w
        /\ int_of_str py (str_strip py (length_var w)) = inl e)
  \/ (exists password len st,
        r = inr tt /\ w' = generated password st w
        /\ int_of_str py (str_strip py (length_var w)) = inr len
        /\ (4 <= len <= 512)%Z
        /\ Z.of_nat (String.length password) = len).
Proof.
  intros Hrun.
  destruct (str_isdigit py (str_strip py (length_var w))) eqn:Hd.
  2: { unfold on_generate in Hrun. rewrite Hd in Hrun. cbn [negb] in Hrun.
       injection Hrun as <- <-. left. eexists _, _.
       split_and!; [done | done | by left]. }
  destruct (int_of_str py (str_strip py (length_var w))) as [e | len] eqn:Hi.
  { unfold on_generate in Hrun. rewrite Hd, Hi in Hrun. cbn [negb] in Hrun.
    injection Hrun as <- <-. right. left. by exists e. }
  destruct (decide (4 <= len <= 512)%Z) as [Hlen | Hlen].
  2: { unfold on_generate in Hrun. rewrite Hd, Hi in Hrun. cbn [negb] in Hrun.
       assert ((len <? 4)%Z || (len >? 512)%Z = true) as Hout.
       { destruct (Z.ltb_spec len 4); [done |].
         destruct (Z.gtb_spec len 512); [done | lia]. }
       rewrite Hout in Hrun. injection Hrun as <- <-. left. eexists _, _.
       split_and!; [done | done | right; by left]. }
  destruct (any [include_lower_var w; include_upper_var w;
                 include_digits_var w; include_symbols_var w]) eqn:Hany.
  2: { unfold on_generate in Hrun. rewrite Hd, Hi, Hany in Hrun.
       cbn [negb] in Hrun.
       destruct (Z.ltb_spec len 4); [lia |].
       destruct (Z.gtb_spec len 512); [lia |]. cbn [orb] in Hrun.
       injection Hrun as <- <-. left. eexists _, _.
       split_and!; [done | done | right; right; by left]. }
  destruct (on_generate_success py entropy w len Hd Hi Hlen Hany)
    as (password & Hrun' & Hl & _).
  rewrite Hrun' in Hrun. injection Hrun as <- <-.
  right. right. by eexists password, len, _.
Qed.

Lemma on_generate_outcome_witness :
  on_generate ascii_ops zero_entropy
      (Window "abc" true true true true "old" "" [] 0)
    = (inr tt,
       show (ShowError "Invalid input" "Length must be a positive number.")
         (Window "abc" true true true true "old" "" [] 0))
  /\ ((exists title message,
         @inr exn unit tt = inr tt
         /\ show (ShowError "Invalid input"
                    "Length must be a positive number.")
              (Window "abc" true true true true "old" "" [] 0)
            = show (ShowError title message)
                (Window "abc" true true true true "old" "" [] 0)
         /\ title ∈ ["Invalid input"; "Invalid length"; "No character sets"])
      \/ (exists e,
            @inr exn unit tt = inl e
            /\ show (ShowError "Invalid input"
                       "Length must be a positive number.")
                 (Window "abc" true true true true "old" "" [] 0)
               = Window "abc" true true true true "old" "" [] 0
            /\ int_of_str ascii_ops
                 (str_strip ascii_ops
                    (length_var (Window "abc" true true true true "old" ""
                                   [] 0))) = inl e)
      \/ (exists password len st,
            @inr exn unit tt = inr tt
            /\ show (ShowError "Invalid input"
                       "Length must be a positive number.")
                 (Window "abc" true true true true "old" "" [] 0)
               = generated password st
                   (Window "abc" true true true true "old" "" [] 0)
            /\ int_of_str ascii_ops
                 (str_strip ascii_ops
                    (length_var (Window "abc" true true true true "old" ""
                                   [] 0))) = inr len
            /\ (4 <= len <= 512)%Z
            /\ Z.of_nat (String.length password) = len)).
Proof.
  split; [by vm_compute |].
  apply (on_generate_outcome ascii_ops zero_entropy
           (Window "abc" true true true true "old" "" [] 0)).
  by vm_compute.
Defined.

(** Generate, then Copy. After the Generate button on a valid form, the
    Copy button replaces whatever the clipboard held by exactly the
    password just generated and confirms it; the "Nothing to copy" dialog
    cannot appear, the password having at least 4 characters. *)
Theorem generate_then_copy (py : StrOps) (entropy : nat -> nat)
    (w : window) (len : Z) :
  str_isdigit py (str_strip py (length_var w)) = true ->
  int_of_str py (str_strip py (length_var w)) = inr len ->
  (4 <= len <= 512)%Z ->
  any [include_lower_var w; include_upper_var w; include_digits_var w;
       include_symbols_var w] = true ->
  exists password,
    fst (on_generate py entropy w) = inr tt
    /\ password_var (snd (on_generate py entropy w)) = password
    /\ Z.of_nat (String.length password) = len
    /\ clipboard (on_copy (snd (on_generate py entropy w))) = password
    /\ events (on_copy (snd (on_generate py entropy w)))
       = events w
         ++ [FocusPassword; SelectPassword; Update;
             ShowInfo "Copied" "Password copied to clipboard."].
Proof.
  intros Hd Hi Hlen Hany.
  destruct (on_generate_success py entropy w len Hd Hi Hlen Hany)
    as (password & Hrun & Hl & _).
  exists password. rewrite Hrun. cbn [fst snd].
  assert (Nat.eqb (String.length password) 0 = false) as Hne
    by (apply Nat.eqb_neq; lia).
  destruct w as [lv il iu id isy pv cb ev st].
  unfold on_copy, generated.
  cbn [show set_password set_drawn set_clipboard password_var clipboard
       events length_var include_lower_var include_upper_var
       include_digits_var include_symbols_var win_drawn].
  rewrite Hne.
  cbn [show set_password set_drawn set_clipboard password_var clipboard
       events length_var include_lower_var include_upper_var
       include_digits_var include_symbols_var win_drawn].
  split_and!; try done. by rewrite <- !app_assoc.
Qed.

Lemma generate_then_copy_witness :
  str_isdigit ascii_ops
      (str_strip ascii_ops (length_var (initial_window "old text" 0))) = true
  /\ int_of_str ascii_ops
       (str_strip ascii_ops (length_var (initial_window "old text" 0)))
     = inr 16%Z
  /\ (4 <= 16 <= 512)%Z
  /\ any [include_lower_var (initial_window "old text" 0);
          include_upper_var (initial_window "old text" 0);
          include_digits_var (initial_window "old text" 0);
          include_symbols_var (initial_window "old text" 0)] = true
  /\ exists password,
       fst (on_generate ascii_ops affine_entropy (initial_window "old text" 0))
       = inr tt
       /\ password_var
            (snd (on_generate ascii_ops affine_entropy
                    (initial_window "old text" 0))) = password
       /\ Z.of_nat (String.length password) = 16%Z
       /\ clipboard
            (on_copy (snd (on_generate ascii_ops affine_entropy
                             (initial_window "old text" 0)))) = password
       /\ events
            (on_copy (snd (on_generate ascii_ops affine_entropy
                             (initial_window "old text" 0))))
          = events (initial_window "old text" 0)
            ++ [FocusPassword; SelectPassword; Update;
                ShowInfo "Copied" "Password copied to clipboard."].
Proof.
  split; [by vm_compute |]. split; [by vm_compute |]. split; [lia |].
  split; [by vm_compute |].
  apply (generate_then_copy ascii_ops affine_entropy
           (initial_window "old text" 0) 16);
    [by vm_compute .. | lia | by vm_compute].
Defined.

(** * Sessions that do not run to their end *)

Section Run_cli_failure.

Variable py : StrOps.
Variable entropy : nat -> nat.



End Run_cli_failure.

